(** * Veracode audit-report exporter: a shallow embedding of [script.py]

    The script splits an inclusive date range into windows of at most
    [MAX_WINDOW_DAYS] days, requests one AUDIT report per window, polls each
    report until it is COMPLETED and dumps the collected windows to one JSON
    file.  This development embeds the script function by function and states
    its behaviour over that embedding.

    Layout: Python values and exceptions, [datetime.date], the windower, the
    request payload, the effect monad (a trace of observable events over a
    scripted network), requester, poller, orchestrator; then the theorems. *)

From Equations Require Import Equations.
From Stdlib Require Import ZArith List Bool Lia String Ascii.
From Stdlib Require Import Floats.SpecFloat.
Import ListNotations.

Set Warnings "-register-all".

Open Scope string_scope.
Open Scope list_scope.
Open Scope Z_scope.

(* ===================================================================== *)
(** ** Dates: [datetime.date] as a proleptic Gregorian ordinal *)
(* ===================================================================== *)

(** A [datetime.date] is represented by [date.toordinal()]: day 1 is
    0001-01-01 ([date.min]) and day 3652059 is 9999-12-31 ([date.max]).
    Comparison of dates is comparison of ordinals. *)
Definition date := Z.

Definition MINORDINAL : Z := 1.
Definition MAXORDINAL : Z := 3652059.

Definition valid_date (d : date) : Prop := MINORDINAL <= d <= MAXORDINAL.

(** Python values as they come out of [json.loads] (and go into
    [json.dump]): [None] is [JNull], a [dict] keeps its insertion order. *)
Inductive json : Type :=
| JNull                                  (* None *)
| JBool (b : bool)
| JInt (n : Z)
| JFloat (f : spec_float)
| JStr (s : string)
| JArr (items : list json)               (* list *)
| JObj (members : list (string * json)). (* dict, in insertion order *)

(** One piece of an f-string. *)
Inductive fragment : Type :=
| Lit (s : string)           (* literal text *)
| FStr (v : json)            (* {v}: str(v) *)
| FInt (n : Z)               (* {n} for an int *)
| FDate (d : date)           (* {d} for a date: d.isoformat() *)
| FDumps (v : json).         (* {json.dumps(v)} *)

Definition message := list fragment.

(** Exceptions the script can end in.  Messages built by f-strings keep
    their interpolation structure. *)
Inductive exn : Type :=
| OverflowError (msg : string)
| ValueError (msg : string)
| AttributeError (msg : string)
| RuntimeError (msg : message)
| TimeoutError (msg : message)
| KeyError (key : string)
| HTTPError (code : Z)
| LibraryError (name : string).   (* any other failure raised by a library *)

(** [date + timedelta(days=n)]: CPython computes the ordinal and raises
    OverflowError unless it lies in [1, MAXORDINAL]. *)
Definition date_add (d : date) (days : Z) : exn + date :=
  let o := d + days in
  if (0 <? o) && (o <=? MAXORDINAL)
  then inr o
  else inl (OverflowError "date value out of range").

(** *** Year, month, day (after CPython's [_ord2ymd] and [_ymd2ord]) *)

Definition is_leap (year : Z) : bool :=
  (year mod 4 =? 0) && (negb (year mod 100 =? 0) || (year mod 400 =? 0)).

Definition days_before_year (year : Z) : Z :=
  let y := year - 1 in y * 365 + y / 4 - y / 100 + y / 400.

Definition DAYS_IN_MONTH : list Z :=
  [31; 28; 31; 30; 31; 30; 31; 31; 30; 31; 30; 31].

Definition days_in_month (year month : Z) : Z :=
  if (month =? 2) && is_leap year then 29
  else nth (Z.to_nat (month - 1)) DAYS_IN_MONTH 0.

Definition DAYS_BEFORE_MONTH : list Z :=
  [0; 31; 59; 90; 120; 151; 181; 212; 243; 273; 304; 334].

Definition days_before_month (year month : Z) : Z :=
  nth (Z.to_nat (month - 1)) DAYS_BEFORE_MONTH 0
  + (if (2 <? month) && is_leap year then 1 else 0).

Definition ymd2ord (year month day : Z) : date :=
  days_before_year year + days_before_month year month + day.

Definition DI400Y : Z := 146097.
Definition DI100Y : Z := 36524.
Definition DI4Y : Z := 1461.

Definition ord2ymd (d : date) : Z * Z * Z :=
  let n := d - 1 in
  let n400 := n / DI400Y in
  let n := n mod DI400Y in
  let n100 := n / DI100Y in
  let n := n mod DI100Y in
  let n4 := n / DI4Y in
  let n := n mod DI4Y in
  let n1 := n / 365 in
  let n := n mod 365 in
  let year := n400 * 400 + 1 + n100 * 100 + n4 * 4 + n1 in
  if (n1 =? 4) || (n100 =? 4) then (year - 1, 12, 31)
  else
    let leapyear := (n1 =? 3) && (negb (n4 =? 24) || (n100 =? 3)) in
    let month := Z.shiftr (n + 50) 5 in
    let preceding :=
      nth (Z.to_nat (month - 1)) DAYS_BEFORE_MONTH 0
      + (if (2 <? month) && leapyear then 1 else 0) in
    if n <? preceding then
      let month' := month - 1 in
      let preceding' :=
        preceding
        - (nth (Z.to_nat (month' - 1)) DAYS_IN_MONTH 0
           + (if (month' =? 2) && leapyear then 1 else 0)) in
      (year, month', n - preceding' + 1)
    else (year, month, n - preceding + 1).

(** The low [width] decimal digits of [n], most significant first: the
    ["%0<width>d"] rendering of a non-negative number below [10^width]. *)
Fixpoint zfill (width : nat) (n : Z) : string :=
  match width with
  | O => EmptyString
  | S w =>
      (zfill w (n / 10)
       ++ String (ascii_of_nat (48 + Z.to_nat (n mod 10))) EmptyString)%string
  end.

(** [d.isoformat()], which is also [str(d)] and [f"{d}"]: "%04d-%02d-%02d". *)
Definition isoformat (d : date) : string :=
  let '(y, m, dd) := ord2ymd d in
  (zfill 4 y ++ "-" ++ zfill 2 m ++ "-" ++ zfill 2 dd)%string.

(* ===================================================================== *)
(** ** The windower *)
(* ===================================================================== *)

Definition MAX_WINDOW_DAYS : Z := 180.

Definition window := (date * date)%type.

(** How a generator stops: by falling off its body, or by an exception
    raised inside it. *)
Inductive gen_end : Type :=
| StopIteration
| GenRaise (e : exn).

Definition inspect {A} (a : A) : {b | a = b} := exist _ a eq_refl.

(** The [while] loop of [date_iteration_windows], from a given [current].
    The generator has no effect of its own and its caller never touches its
    frame, so its run is given whole: the windows it yields, in order, and
    the way it ends.  The loop ends because [current] grows. *)
Equations? windows_from (end_date current : date) : list window * gen_end
  by wf (Z.to_nat (end_date - current + 1)) lt :=
  windows_from end_date current with inspect (current <=? end_date) => {
    | exist _ false _ := ([], StopIteration)
    | exist _ true Hle
        with inspect (date_add current (MAX_WINDOW_DAYS - 1)) => {
        | exist _ (inl e) _ := ([], GenRaise e)
        | exist _ (inr upper) Hup
            with inspect (date_add (Z.min upper end_date) 1) => {
            | exist _ (inl e) _ :=
                ([(current, Z.min upper end_date)], GenRaise e)
            | exist _ (inr next) Hnext :=
                let rest := windows_from end_date next in
                ((current, Z.min upper end_date) :: fst rest, snd rest) } } }.
Proof.
  unfold date_add in Hup, Hnext; cbv zeta in Hup, Hnext.
  repeat match goal with
         | H : (if ?b then _ else _) = _ |- _ => destruct b; [ | discriminate H ]
         end.
  injection Hup as <-. injection Hnext as <-.
  apply Z.leb_le in Hle. unfold MAX_WINDOW_DAYS. lia.
Qed.

Definition date_iteration_windows (start_date end_date : date)
  : list window * gen_end :=
  windows_from end_date start_date.

(* ===================================================================== *)
(** ** Python values: truth, [dict] access *)
(* ===================================================================== *)

Definition dict := list (string * json).

(** [bool(v)]: None, False, zero, and the empty string, list and dict are
    false. *)
Definition truthy (v : json) : bool :=
  match v with
  | JNull => false
  | JBool b => b
  | JInt n => negb (n =? 0)
  | JFloat (S754_zero _) => false
  | JFloat _ => true
  | JStr s => negb (s =? EmptyString)%string
  | JArr items => match items with [] => false | _ => true end
  | JObj members => match members with [] => false | _ => true end
  end.

Definition type_name (v : json) : string :=
  match v with
  | JNull => "NoneType"
  | JBool _ => "bool"
  | JInt _ => "int"
  | JFloat _ => "float"
  | JStr _ => "str"
  | JArr _ => "list"
  | JObj _ => "dict"
  end.

Fixpoint dict_lookup (key : string) (d : dict) : option json :=
  match d with
  | [] => None
  | (k, v) :: rest => if (k =? key)%string then Some v else dict_lookup key rest
  end.

(** [d.get(key, default)] on a dict. *)
Definition dict_get (d : dict) (key : string) (default : json) : json :=
  match dict_lookup key d with
  | Some v => v
  | None => default
  end.

(** [d[key] = v]: replaces the value of a key already there, appends a new
    key. *)
Fixpoint dict_set (key : string) (v : json) (d : dict) : dict :=
  match d with
  | [] => [(key, v)]
  | (k, w) :: rest =>
      if (k =? key)%string then (k, v) :: rest else (k, w) :: dict_set key v rest
  end.

(** [obj.get(key, default)] on any value: only a dict has [get]. *)
Definition py_get (obj : json) (key : string) (default : json) : exn + json :=
  match obj with
  | JObj members => inr (dict_get members key default)
  | _ => inl (AttributeError
                ("'" ++ type_name obj ++ "' object has no attribute 'get'")%string)
  end.

(** [d[key]] on a dict. *)
Definition dict_getitem (d : dict) (key : string) : exn + json :=
  match dict_lookup key d with
  | Some v => inr v
  | None => inl (KeyError key)
  end.

(** [v == s] for a string literal [s]. *)
Definition eq_str (v : json) (s : string) : bool :=
  match v with
  | JStr t => (t =? s)%string
  | _ => false
  end.

Definition is_none (v : json) : bool :=
  match v with
  | JNull => true
  | _ => false
  end.

(** [range(lo, hi)]. *)
Definition py_range (lo hi : Z) : list Z :=
  map (fun i => lo + Z.of_nat i) (seq 0 (Z.to_nat (hi - lo))).

(* ===================================================================== *)
(** ** The host: what the script takes from its platform *)
(* ===================================================================== *)

(** An HTTP response as the script uses it: [raise_for_status] looks at the
    status code, [json()] parses the body ([None]: the body is not JSON). *)
Record response : Type := {
  status_code : Z;
  body : option json;
}.

(** The libraries and the outside world.  [network k] is the outcome of the
    [k]-th HTTP call of the run (counted from 0): a response, or the
    exception the transport or the signing plugin raised.  [duration] is the
    type of the seconds the script hands to [time.sleep]: the floats that
    [--sleep] and [--poll-interval] take, negative ones, NaN and the
    infinities among them, which [time.sleep] refuses. *)
Record host {duration : Type} : Type := {
  strftime_Ymd : date -> string;          (* d.strftime("%Y-%m-%d"), by the C library *)
  fromisoformat : string -> exn + date;   (* dt.date.fromisoformat *)
  today : date;                           (* dt.date.today() *)
  network : nat -> exn + response;
  sleep_failure : duration -> option exn; (* time.sleep(seconds): what it raises, if anything *)
  open_for_writing : string -> option exn; (* open(path, "w"): the failure, if any *)
  dump_failure : string -> option exn     (* json.dump into the open file, and its close: the failure, if any *)
}.
Arguments host : clear implicits.

Definition BASE_URL : string :=
  "https://api.veracode.com/appsec/v1/analytics/report".
Definition DEFAULT_MAX_POLLS : Z := 40.

Inductive session : Type := Session.

Section Effects.

(** Seconds as the script hands them to [time.sleep]. *)
Context {duration : Type}.

(** What a run does that can be seen from outside, in order. *)
Inductive event : Type :=
| EvSession                                         (* requests.Session() *)
| EvPost (url : string) (payload : json) (timeout : Z)
| EvGet (url : message) (timeout : Z)
| EvSleep (seconds : duration)
| EvPrint (line : message)
| EvOpen (path : string)                            (* open(path, "w"): the file is there, empty *)
| EvDump (path : string) (doc : json) (indent : Z). (* json.dump done, the file closed *)

Definition trace := list event.

Definition is_call (ev : event) : bool :=
  match ev with
  | EvPost _ _ _ | EvGet _ _ => true
  | _ => false
  end.

Definition is_get (ev : event) : bool :=
  match ev with
  | EvGet _ _ => true
  | _ => false
  end.

Definition is_sleep (ev : event) : bool :=
  match ev with
  | EvSleep _ => true
  | _ => false
  end.

Definition calls (tr : trace) : nat := List.length (filter is_call tr).
Definition fetches (tr : trace) : nat := List.length (filter is_get tr).
Definition sleeps (tr : trace) : nat := List.length (filter is_sleep tr).

(** A computation: from the trace so far to a value or an exception, and
    the trace extended. *)
Definition M (A : Type) : Type := trace -> (exn + A) * trace.

Definition ret {A} (a : A) : M A := fun tr => (inr a, tr).

Definition bind {A B} (m : M A) (f : A -> M B) : M B :=
  fun tr =>
    match m tr with
    | (inl e, tr') => (inl e, tr')
    | (inr a, tr') => f a tr'
    end.

Definition raise {A} (e : exn) : M A := fun tr => (inl e, tr).

Definition lift {A} (r : exn + A) : M A := fun tr => (r, tr).

Definition emit (ev : event) : M unit := fun tr => (inr tt, tr ++ [ev]).

End Effects.

Arguments event : clear implicits.
Arguments trace : clear implicits.
Arguments M : clear implicits.

Declare Scope script_scope.
Delimit Scope script_scope with script.

Notation "x <- c1 ;; c2" := (bind c1 (fun x => c2))
  (at level 61, c1 at next level, right associativity) : script_scope.
Notation "c1 ;; c2" := (bind c1 (fun _ => c2))
  (at level 61, right associativity) : script_scope.

Open Scope script_scope.

(* ===================================================================== *)
(** ** The script *)
(* ===================================================================== *)

Record arguments {duration : Type} : Type := {
  arg_start_date : string;          (* --start-date, required *)
  arg_end_date : option string;     (* --end-date *)
  arg_sleep : duration;             (* --sleep *)
  arg_poll_interval : duration;     (* --poll-interval *)
  arg_max_polls : Z;                (* --max-polls *)
}.
Arguments arguments : clear implicits.

Definition newline : string := String (ascii_of_nat 10) EmptyString.

Section Script.

Context {duration : Type}.
Variable H : host duration.

(** One HTTP call: the request is recorded, the host answers. *)
Definition http (ev : event duration) : M duration response :=
  fun tr => (network H (calls tr), tr ++ [ev]).

Definition new_session : M duration session :=
  emit EvSession ;; ret Session.

Definition session_post (s : session) (url : string) (payload : json)
           (timeout : Z) : M duration response :=
  http (EvPost url payload timeout).

Definition session_get (s : session) (url : message) (timeout : Z)
  : M duration response :=
  http (EvGet url timeout).

(** [resp.raise_for_status()]: HTTPError on a 4xx or 5xx status. *)
Definition raise_for_status (resp : response) : M duration unit :=
  if (400 <=? status_code resp) && (status_code resp <? 600)
  then raise (HTTPError (status_code resp))
  else ret tt.

(** [resp.json()]. *)
Definition response_json (resp : response) : M duration json :=
  match body resp with
  | Some data => ret data
  | None => raise (LibraryError "JSONDecodeError")
  end.

Definition print (line : message) : M duration unit := emit (EvPrint line).

(** [time.sleep(seconds)]: refused durations raise before any sleeping. *)
Definition sleep (seconds : duration) : M duration unit :=
  match sleep_failure H seconds with
  | Some e => raise e
  | None => emit (EvSleep seconds)
  end.

Definition to_date (value : string) : M duration date :=
  lift (fromisoformat H value).

Definition build_audit_payload (window_start window_end : date) : dict :=
  let payload :=
    [("report_type", JStr "AUDIT");
     ("start_date", JStr (strftime_Ymd H window_start))] in
  if window_end >? window_start
  then dict_set "end_date" (JStr (strftime_Ymd H window_end)) payload
  else payload.

Definition request_report (s : session) (payload : dict) : M duration json :=
  resp <- session_post s BASE_URL (JObj payload) 60 ;;
  raise_for_status resp ;;
  data <- response_json resp ;;
  embedded <- lift (py_get data "_embedded" (JObj [])) ;;
  top <- lift (py_get data "id" JNull) ;;
  report_id <- (if truthy top then ret top
                else lift (py_get embedded "id" JNull)) ;;
  if negb (truthy report_id) then
    raise (RuntimeError
             [Lit "No 'id' in response from "; Lit BASE_URL; Lit ": ";
              FDumps data])
  else ret report_id.

Definition get_report_once (s : session) (report_id : json) : M duration json :=
  let url := [Lit BASE_URL; Lit "/"; FStr report_id] in
  resp <- session_get s url 300 ;;
  raise_for_status resp ;;
  response_json resp.

(** The [for attempt in range(1, max_polls + 1)] loop of
    [wait_for_report], over the attempts still to make; the statement after
    the loop is the empty case. *)
Fixpoint poll_loop (s : session) (report_id : json)
         (poll_interval : duration) (max_polls : Z) (attempts : list Z)
  : M duration json :=
  match attempts with
  | [] =>
      raise (TimeoutError
               [Lit "Report "; FStr report_id;
                Lit " did not reach COMPLETED after "; FInt max_polls;
                Lit " polls"])
  | attempt :: later =>
      data <- get_report_once s report_id ;;
      embedded <- lift (py_get data "_embedded" (JObj [])) ;;
      status <- lift (py_get embedded "status" JNull) ;;
      print [Lit "  Poll "; FInt attempt; Lit ": status="; FStr status] ;;
      if eq_str status "COMPLETED" then ret data
      else if negb (eq_str status "SUBMITTED" || eq_str status "PROCESSING"
                    || is_none status) then
        raise (RuntimeError
                 [Lit "Report "; FStr report_id;
                  Lit " ended in unexpected status "; FStr status;
                  Lit ": "; FDumps data])
      else
        sleep poll_interval ;;
        poll_loop s report_id poll_interval max_polls later
  end.

Definition wait_for_report (s : session) (report_id : json)
           (poll_interval : duration) (max_polls : Z) : M duration json :=
  poll_loop s report_id poll_interval max_polls (py_range 1 (max_polls + 1)).

Definition fetch_audit_window (s : session) (window_start window_end : date)
           (sleep_between_windows poll_interval : duration) (max_polls : Z)
  : M duration json :=
  let payload := build_audit_payload window_start window_end in
  start_str <- lift (dict_getitem payload "start_date") ;;
  let end_str := dict_get payload "end_date" start_str in
  print [Lit "Requesting AUDIT report from "; FStr start_str; Lit " to ";
         FStr end_str; Lit "..."] ;;
  report_id <- request_report s payload ;;
  print [Lit "  Report id: "; FStr report_id] ;;
  report_data <- wait_for_report s report_id poll_interval max_polls ;;
  print [Lit "  Report completed and retrieved."] ;;
  sleep sleep_between_windows ;;
  ret (JObj [("window_start", start_str);
             ("window_end", end_str);
             ("report", report_data)]).

(** [with open(path, "w", encoding="utf-8") as f: json.dump(doc, f, indent)]:
    [open] can fail, and then there is no file; once it has made or emptied
    the file, the dump or the close can still fail, and then the file is
    left with whatever was written. *)
Definition dump_to_file (path : string) (doc : json) (indent : Z)
  : M duration unit :=
  match open_for_writing H path with
  | Some e => raise e
  | None =>
      emit (EvOpen path) ;;
      match dump_failure H path with
      | Some e => raise e
      | None => emit (EvDump path doc indent)
      end
  end.

(** The body of the [for] loop of [main], over the windows the generator
    still yields; [id] is the counter of [enumerate]. *)
Fixpoint export_windows (s : session) (args : arguments duration) (id : Z)
         (windows : list window) (all_windows : list json)
  : M duration (list json) :=
  match windows with
  | [] => ret all_windows
  | (w_start, w_end) :: later =>
      print [Lit newline; Lit "=== Data Window "; FInt id; Lit ": ";
             FDate w_start; Lit " to "; FDate w_end; Lit " ==="] ;;
      window_data <- fetch_audit_window s w_start w_end (arg_sleep args)
                       (arg_poll_interval args) (arg_max_polls args) ;;
      export_windows s args (id + 1) later (all_windows ++ [window_data])
  end.

Definition out_file_name (start_date end_date : date) : string :=
  ("veracode_audit_" ++ isoformat start_date ++ "_to_"
   ++ isoformat end_date ++ ".json")%string.

Definition main (args : arguments duration) : M duration unit :=
  start_date <- to_date (arg_start_date args) ;;
  end_date <- match arg_end_date args with
              | Some value =>
                  if negb (value =? EmptyString)%string then to_date value
                  else ret (today H)
              | None => ret (today H)
              end ;;
  if start_date >? end_date then
    raise (ValueError "start-date must be on or before end-date")
  else
    print [Lit "Exporting AUDIT data from "; FDate start_date; Lit " to ";
           FDate end_date; Lit "..."] ;;
    s <- new_session ;;
    let produced := date_iteration_windows start_date end_date in
    all_windows <- export_windows s args 1 (fst produced) [] ;;
    match snd produced with
    | GenRaise e => raise e
    | StopIteration =>
        let out_file := out_file_name start_date end_date in
        dump_to_file out_file (JArr all_windows) 2 ;;
        print [Lit newline; Lit "Done. Saved ";
               FInt (Z.of_nat (List.length all_windows));
               Lit " window(s) to "; Lit out_file]
    end.

End Script.

(* ===================================================================== *)
(** ** Reading a run: what a call reported, what an error carries *)
(* ===================================================================== *)

(** The status is one of those the poller waits on. *)
Definition pending (status : json) : Prop :=
  status = JStr "SUBMITTED" \/ status = JStr "PROCESSING" \/ status = JNull.

(** The body an HTTP call delivered: the call went through, the status code
    is no error and the body is JSON. *)
Definition delivered (r : exn + response) : option json :=
  match r with
  | inl _ => None
  | inr resp =>
      if (400 <=? status_code resp) && (status_code resp <? 600) then None
      else body resp
  end.

(** The body and the status a status fetch reported: the body is a dict
    whose "_embedded" member, when there, is a dict; the status is its
    "status" member, [None] when there is none. *)
Definition reported (r : exn + response) : option (json * json) :=
  match delivered r with
  | Some (JObj members) =>
      match dict_get members "_embedded" (JObj []) with
      | JObj embedded => Some (JObj members, dict_get embedded "status" JNull)
      | _ => None
      end
  | _ => None
  end.

(** The message of the error quotes the body, as [json.dumps] gives it. *)
Definition reports_body (e : exn) (data : json) : Prop :=
  match e with
  | RuntimeError msg | TimeoutError msg => In (FDumps data) msg
  | _ => False
  end.

(** The end date a run works with: [--end-date] when given and not empty,
    today otherwise. *)
Definition resolved_end_date {duration} (H : host duration)
           (args : arguments duration)
  : exn + date :=
  match arg_end_date args with
  | Some value =>
      if negb (value =? EmptyString)%string then fromisoformat H value
      else inr (today H)
  | None => inr (today H)
  end.

(** The entry of the output document for one window and its report. *)
Definition window_outcome {duration} (H : host duration)
           (wr : window * json) : json :=
  JObj [("window_start", JStr (strftime_Ymd H (fst (fst wr))));
        ("window_end", JStr (strftime_Ymd H (snd (fst wr))));
        ("report", snd wr)].

Definition is_dump {duration} (ev : event duration) : bool :=
  match ev with
  | EvDump _ _ _ => true
  | _ => false
  end.

Definition is_file_event {duration} (ev : event duration) : bool :=
  match ev with
  | EvOpen _ | EvDump _ _ _ => true
  | _ => false
  end.

(** [tr'] extends [tr] by events none of which opens or writes a file. *)
Definition extends_quietly {duration} (tr tr' : trace duration) : Prop :=
  exists mid,
    tr' = tr ++ mid /\ Forall (fun ev => is_file_event ev = false) mid.

(** A computation that touches no file, however it ends. *)
Definition quiet (duration : Type) {A} (m : M duration A) : Prop :=
  forall tr r tr', m tr = (r, tr') -> extends_quietly tr tr'.

(** The reports a stretch of a run has fetched: the bodies of those of its
    status fetches that reported COMPLETED, in the order of the fetches.
    [k] is the number of HTTP calls made before the stretch. *)
Fixpoint fetched_reports {duration} (H : host duration) (k : nat)
         (tr : trace duration) : list json :=
  match tr with
  | [] => []
  | EvGet _ _ :: rest =>
      match reported (network H k) with
      | Some (data, status) =>
          if eq_str status "COMPLETED"
          then data :: fetched_reports H (S k) rest
          else fetched_reports H (S k) rest
      | None => fetched_reports H (S k) rest
      end
  | EvPost _ _ _ :: rest => fetched_reports H (S k) rest
  | _ :: rest => fetched_reports H k rest
  end.

(* ===================================================================== *)
(** ** A sample host, for concrete runs *)
(* ===================================================================== *)

Definition digit_value (c : ascii) : option Z :=
  let n := Z.of_nat (nat_of_ascii c) in
  if (48 <=? n) && (n <=? 57) then Some (n - 48) else None.

Definition two_digits (a b : ascii) : option Z :=
  match digit_value a, digit_value b with
  | Some x, Some y => Some (10 * x + y)
  | _, _ => None
  end.

(** [date.fromisoformat] on the format every CPython version reads,
    YYYY-MM-DD. *)
Definition fromisoformat_ymd (value : string) : exn + date :=
  match value with
  | String y1 (String y2 (String y3 (String y4 (String "-"
      (String m1 (String m2 (String "-"
      (String d1 (String d2 EmptyString))))))))) =>
      match two_digits y1 y2, two_digits y3 y4,
            two_digits m1 m2, two_digits d1 d2 with
      | Some yh, Some yl, Some m, Some d =>
          let y := 100 * yh + yl in
          if (1 <=? y) && (1 <=? m) && (m <=? 12)
             && (1 <=? d) && (d <=? days_in_month y m)
          then inr (ymd2ord y m d)
          else inl (ValueError "date out of range")
      | _, _, _, _ => inl (ValueError "Invalid isoformat string")
      end
  | _ => inl (ValueError "Invalid isoformat string")
  end.

Definition ok_response (data : json) : exn + response :=
  inr {| status_code := 200; body := Some data |}.

Definition status_body (status : json) : json :=
  JObj [("_embedded", JObj [("status", status)]); ("data", JArr [])].

(** [time.sleep] on whole seconds: a number too large for the clock is an
    OverflowError, a negative one a ValueError. *)
Definition sleep_failure_seconds (seconds : Z) : option exn :=
  if (seconds <? -9223372036) || (9223372036 <? seconds)
  then Some (OverflowError "timestamp too large to convert to C _PyTime_t")
  else if seconds <? 0
       then Some (ValueError "sleep length must be non-negative")
       else None.

(** A host that replays a list of answers, on 2024-01-01, with durations in
    whole seconds and a disk that takes every file. *)
Definition replay (answers : list (exn + response)) : host Z := {|
  strftime_Ymd := isoformat;
  fromisoformat := fromisoformat_ymd;
  today := 738886;
  network := fun k => nth k answers (inl (LibraryError "ConnectionError"));
  sleep_failure := sleep_failure_seconds;
  open_for_writing := fun _ => None;
  dump_failure := fun _ => None;
|}.

Definition sample_arguments (start_date : string) (end_date : option string)
           (max_polls : Z) : arguments Z := {|
  arg_start_date := start_date;
  arg_end_date := end_date;
  arg_sleep := 1;
  arg_poll_interval := 5;
  arg_max_polls := max_polls;
|}.

(** The run of the specification's end-to-end example: one day, the
    submission answers id "r1", the first poll reports COMPLETED. *)
Definition one_day_run : (exn + unit) * trace Z :=
  main (replay [ok_response (JObj [("id", JStr "r1")]);
                ok_response (status_body (JStr "COMPLETED"))])
       (sample_arguments "2024-01-01" (Some "2024-01-01") 40) [].

(* ===================================================================== *)
(** ** What the windows of a range should look like *)
(* ===================================================================== *)

(** Inclusive length of a window, in days. *)
Definition span (w : window) : Z := snd w - fst w + 1.

Fixpoint last_error {A} (l : list A) : option A :=
  match l with
  | [] => None
  | [a] => Some a
  | _ :: rest => last_error rest
  end.

(** Each window starts the day after the one before it ends. *)
Definition contiguous (ws : list window) : Prop :=
  forall i a b,
    nth_error ws i = Some a -> nth_error ws (S i) = Some b ->
    fst b = snd a + 1.

(** Windows come in increasing order and no two share a day. *)
Definition ordered_disjoint (ws : list window) : Prop :=
  forall i j a b,
    (i < j)%nat -> nth_error ws i = Some a -> nth_error ws j = Some b ->
    snd a < fst b.

(** The days of the windows are exactly the days of the range. *)
Definition covers (start_date end_date : date) (ws : list window) : Prop :=
  forall d,
    start_date <= d <= end_date <->
    exists w, In w ws /\ fst w <= d <= snd w.

Record tiles (start_date end_date : date) (ws : list window) : Prop := {
  tiles_first : option_map fst (hd_error ws) = Some start_date;
  tiles_last : option_map snd (last_error ws) = Some end_date;
  tiles_contiguous : contiguous ws;
  tiles_ordered : ordered_disjoint ws;
  tiles_covers : covers start_date end_date ws;
  tiles_span : Forall (fun w => 1 <= span w <= MAX_WINDOW_DAYS) ws;
}.

(** The same, as the loop builds it: from [s], window after window, up to
    [e]. *)
Fixpoint chain (s e : date) (ws : list window) : Prop :=
  match ws with
  | [] => s = e + 1
  | w :: rest =>
      fst w = s /\ s <= snd w <= e /\ span w <= MAX_WINDOW_DAYS
      /\ chain (snd w + 1) e rest
  end.

(* ===================================================================== *)
(** ** Reading a run, continued: failures, counts *)
(* ===================================================================== *)

(** The status a response body shows, when its shape lets the poller read
    one: what [data.get("_embedded", {}).get("status")] evaluates to. *)
Definition status_of (data : json) : option json :=
  match py_get data "_embedded" (JObj []) with
  | inr embedded =>
      match py_get embedded "status" JNull with
      | inr status => Some status
      | inl _ => None
      end
  | inl _ => None
  end.

(** The exception an HTTP call ends in before its body is looked at: the
    one the transport raised, the HTTPError of [raise_for_status], or the
    decoding error of [json()]. *)
Definition call_failure (r : exn + response) : option exn :=
  match r with
  | inl e => Some e
  | inr resp =>
      if (400 <=? status_code resp) && (status_code resp <? 600)
      then Some (HTTPError (status_code resp))
      else match body resp with
           | Some _ => None
           | None => Some (LibraryError "JSONDecodeError")
           end
  end.

Definition is_post {duration} (ev : event duration) : bool :=
  match ev with
  | EvPost _ _ _ => true
  | _ => false
  end.

(** Whatever [m] does, it adds at most [n] events that [count] selects. *)
Definition within {duration A} (count : event duration -> bool) (n : nat)
           (m : M duration A) : Prop :=
  forall tr r tr',
    m tr = (r, tr') ->
    exists mid, tr' = tr ++ mid /\ (List.length (filter count mid) <= n)%nat.

(** The submission the script makes for a window. *)
Definition window_request {duration} (H : host duration) (w : window)
  : event duration :=
  EvPost BASE_URL (JObj (build_audit_payload H (fst w) (snd w))) 60.

(* ===================================================================== *)
(** ** Theorems: the windower *)
(* ===================================================================== *)

(** The loop body, as the source has it. *)
Lemma windows_from_body (end_date current : date) :
  windows_from end_date current =
  if current <=? end_date then
    match date_add current (MAX_WINDOW_DAYS - 1) with
    | inl e => ([], GenRaise e)
    | inr upper =>
        let window_end := Z.min upper end_date in
        match date_add window_end 1 with
        | inl e => ([(current, window_end)], GenRaise e)
        | inr next =>
            let rest := windows_from end_date next in
            ((current, window_end) :: fst rest, snd rest)
        end
    end
  else ([], StopIteration).
Proof.
  funelim (windows_from end_date current).
  all: repeat match goal with
         | H : (_ <=? _) = _ |- _ => rewrite H
         | H : date_add _ _ = _ |- _ => rewrite H
         end; reflexivity.
Qed.

Lemma date_add_inr (d days r : Z) :
  date_add d days = inr r -> r = d + days /\ 0 < r <= MAXORDINAL.
Proof.
  unfold date_add; cbv zeta.
  destruct ((0 <? d + days) && (d + days <=? MAXORDINAL)) eqn:E; [ | discriminate ].
  intros [= <-]. apply andb_true_iff in E as [E1 E2].
  apply Z.ltb_lt in E1. apply Z.leb_le in E2. lia.
Qed.

Lemma date_add_in_range (d days : Z) :
  0 < d + days <= MAXORDINAL -> date_add d days = inr (d + days).
Proof.
  intros [H1 H2]. unfold date_add; cbv zeta.
  apply Z.ltb_lt in H1. apply Z.leb_le in H2. rewrite H1, H2. reflexivity.
Qed.

Lemma date_add_overflow (d days : Z) :
  MAXORDINAL < d + days ->
  date_add d days = inl (OverflowError "date value out of range").
Proof.
  intros Hgt. unfold date_add; cbv zeta.
  apply Z.leb_gt in Hgt. rewrite Hgt, andb_false_r. reflexivity.
Qed.

(** Induction along the iterations of the loop. *)
Lemma windows_from_ind (end_date : date)
      (P : date -> list window * gen_end -> Prop) :
  (forall current, end_date < current -> P current ([], StopIteration)) ->
  (forall current e,
      current <= end_date ->
      date_add current (MAX_WINDOW_DAYS - 1) = inl e ->
      P current ([], GenRaise e)) ->
  (forall current upper e,
      current <= end_date ->
      date_add current (MAX_WINDOW_DAYS - 1) = inr upper ->
      date_add (Z.min upper end_date) 1 = inl e ->
      P current ([(current, Z.min upper end_date)], GenRaise e)) ->
  (forall current upper next,
      current <= end_date ->
      date_add current (MAX_WINDOW_DAYS - 1) = inr upper ->
      date_add (Z.min upper end_date) 1 = inr next ->
      P next (windows_from end_date next) ->
      P current ((current, Z.min upper end_date)
                   :: fst (windows_from end_date next),
                 snd (windows_from end_date next))) ->
  forall current, P current (windows_from end_date current).
Proof.
  intros Hstop Hraise1 Hraise2 Hstep current.
  remember (Z.to_nat (end_date - current + 1)) as n eqn:En.
  revert current En.
  induction n as [n IH] using lt_wf_ind. intros current En.
  rewrite windows_from_body.
  destruct (current <=? end_date) eqn:Hle.
  - apply Z.leb_le in Hle.
    destruct (date_add current (MAX_WINDOW_DAYS - 1)) as [e | upper] eqn:Hup.
    + apply Hraise1; assumption.
    + cbv zeta.
      destruct (date_add (Z.min upper end_date) 1) as [e | next] eqn:Hnext.
      * apply Hraise2; assumption.
      * apply Hstep; try assumption.
        apply date_add_inr in Hup as Hup'.
        apply date_add_inr in Hnext as Hnext'.
        apply (IH (Z.to_nat (end_date - next + 1))); [ | reflexivity ].
        unfold MAX_WINDOW_DAYS in *. lia.
  - apply Z.leb_gt in Hle. apply Hstop; assumption.
Qed.

(** A run that ends normally has built a chain from [current] to
    [end_date]. *)
Lemma windows_from_chain (end_date current : date) :
  current <= end_date + 1 ->
  snd (windows_from end_date current) = StopIteration ->
  chain current end_date (fst (windows_from end_date current)).
Proof.
  pattern current, (windows_from end_date current).
  apply windows_from_ind; clear current; simpl.
  - intros current Hgt Hle _. lia.
  - intros current e _ _ _ Hend. discriminate Hend.
  - intros current upper e _ _ _ _ Hend. discriminate Hend.
  - intros current upper next Hle Hup Hnext IH _ Hend.
    apply date_add_inr in Hup as [-> _]. apply date_add_inr in Hnext as [-> _].
    unfold span, MAX_WINDOW_DAYS in *; simpl.
    repeat split; try lia.
    apply IH; [ lia | assumption ].
Qed.

(** Far enough from [date.max], no date of the loop overflows. *)
Lemma windows_from_stops (end_date current : date) :
  0 < current ->
  end_date + (MAX_WINDOW_DAYS - 1) <= MAXORDINAL ->
  snd (windows_from end_date current) = StopIteration.
Proof.
  pattern current, (windows_from end_date current).
  apply windows_from_ind; clear current; simpl.
  - reflexivity.
  - intros current e Hle Hup Hpos Hfar.
    rewrite date_add_in_range in Hup by (unfold MAX_WINDOW_DAYS in *; lia).
    discriminate Hup.
  - intros current upper e Hle Hup Hnext Hpos Hfar.
    apply date_add_inr in Hup as [-> _].
    rewrite date_add_in_range in Hnext by (unfold MAX_WINDOW_DAYS in *; lia).
    discriminate Hnext.
  - intros current upper next Hle Hup Hnext IH Hpos Hfar.
    apply date_add_inr in Hnext as [_ [Hnext _]].
    apply IH; assumption.
Qed.

Lemma chain_bounds (s e : date) (ws : list window) :
  chain s e ws -> forall w, In w ws -> s <= fst w /\ fst w <= snd w <= e.
Proof.
  revert s. induction ws as [ | a rest IH ]; intros s Hc w Hin.
  - destruct Hin.
  - destruct Hc as (Hs & Hb & _ & Hrest). destruct Hin as [<- | Hin].
    + lia.
    + specialize (IH _ Hrest w Hin). lia.
Qed.

Lemma chain_order (s e : date) (ws : list window) :
  chain s e ws -> s <= e + 1.
Proof.
  revert s. induction ws as [ | a rest IH ]; intros s Hc.
  - simpl in Hc. lia.
  - destruct Hc as (_ & Hb & _ & _). lia.
Qed.

Lemma chain_first (s e : date) (ws : list window) :
  chain s e ws -> s <= e -> option_map fst (hd_error ws) = Some s.
Proof.
  destruct ws as [ | a rest ]; simpl.
  - lia.
  - intros (-> & _) _. reflexivity.
Qed.

Lemma chain_last (s e : date) (ws : list window) :
  chain s e ws -> s <= e -> option_map snd (last_error ws) = Some e.
Proof.
  revert s. induction ws as [ | a rest IH ]; intros s Hc Hle.
  - simpl in Hc. lia.
  - destruct Hc as (Hs & Hb & _ & Hrest).
    destruct rest as [ | b rest' ].
    + simpl in Hrest. simpl. f_equal. lia.
    + change (last_error (a :: b :: rest')) with (last_error (b :: rest')).
      apply (IH _ Hrest). destruct Hrest as (Hb1 & Hb2 & _). lia.
Qed.

Lemma chain_contiguous (s e : date) (ws : list window) :
  chain s e ws -> contiguous ws.
Proof.
  revert s. induction ws as [ | a rest IH ]; intros s Hc i x y Hx Hy.
  - destruct i; discriminate Hx.
  - destruct Hc as (_ & _ & _ & Hrest). destruct i as [ | i ].
    + injection Hx as <-. destruct rest as [ | b rest' ]; [ discriminate Hy | ].
      injection Hy as <-. destruct Hrest as (Hb & _). exact Hb.
    + exact (IH _ Hrest i x y Hx Hy).
Qed.

Lemma chain_ordered (s e : date) (ws : list window) :
  chain s e ws -> ordered_disjoint ws.
Proof.
  revert s. induction ws as [ | a rest IH ]; intros s Hc i j x y Hij Hx Hy.
  - destruct i; discriminate Hx.
  - destruct Hc as (_ & _ & _ & Hrest). destruct j as [ | j ]; [ lia | ].
    destruct i as [ | i ].
    + injection Hx as <-. simpl in Hy. apply nth_error_In in Hy.
      pose proof (chain_bounds _ _ _ Hrest y Hy). lia.
    + apply (IH _ Hrest i j x y); [ lia | assumption | assumption ].
Qed.

Lemma chain_covers (s e : date) (ws : list window) :
  chain s e ws -> covers s e ws.
Proof.
  revert s. induction ws as [ | a rest IH ]; intros s Hc d.
  - simpl in Hc. split.
    + lia.
    + intros (w & [] & _).
  - destruct Hc as (Hs & Hb & _ & Hrest). specialize (IH _ Hrest d).
    pose proof (chain_order _ _ _ Hrest) as Hord. split.
    + intros Hd. destruct (Z_le_gt_dec d (snd a)) as [Hin | Hout].
      * exists a. split; [ left; reflexivity | lia ].
      * destruct IH as [IH _]. destruct IH as (w & Hw & Hdw); [ lia | ].
        exists w. split; [ right; assumption | assumption ].
    + intros (w & [<- | Hw] & Hdw).
      * lia.
      * destruct IH as [_ IH]. assert (snd a + 1 <= d <= e); [ | lia ].
        apply IH. exists w. split; assumption.
Qed.

Lemma chain_span (s e : date) (ws : list window) :
  chain s e ws -> Forall (fun w => 1 <= span w <= MAX_WINDOW_DAYS) ws.
Proof.
  revert s. induction ws as [ | a rest IH ]; intros s Hc.
  - constructor.
  - destruct Hc as (Hs & Hb & Hspan & Hrest). constructor.
    + unfold span in *. lia.
    + exact (IH _ Hrest).
Qed.

Lemma chain_tiles (s e : date) (ws : list window) :
  s <= e -> chain s e ws -> tiles s e ws.
Proof.
  intros Hle Hc. constructor.
  - exact (chain_first _ _ _ Hc Hle).
  - exact (chain_last _ _ _ Hc Hle).
  - exact (chain_contiguous _ _ _ Hc).
  - exact (chain_ordered _ _ _ Hc).
  - exact (chain_covers _ _ _ Hc).
  - exact (chain_span _ _ _ Hc).
Qed.

(** C1, as the code has it: for dates [start_date <= end_date], whenever the
    generator runs to its end without a date overflow -- which it does
    whenever [end_date] is at most [date.max] minus 179 days (9999-07-05) --
    the windows it yields are ordered, contiguous and disjoint, start at
    [start_date], end at [end_date], cover exactly the days of the range and
    span at most 180 days each. *)
Theorem date_iteration_windows_tiles (start_date end_date : date) :
  valid_date start_date -> valid_date end_date ->
  start_date <= end_date ->
  (end_date <= MAXORDINAL - (MAX_WINDOW_DAYS - 1) ->
   snd (date_iteration_windows start_date end_date) = StopIteration)
  /\ (snd (date_iteration_windows start_date end_date) = StopIteration ->
      tiles start_date end_date
            (fst (date_iteration_windows start_date end_date))).
Proof.
  intros [Hs _] _ Hle. unfold date_iteration_windows, MINORDINAL in *. split.
  - intros Hfar. apply windows_from_stops; lia.
  - intros Hend. apply chain_tiles; [ assumption | ].
    apply windows_from_chain; [ lia | assumption ].
Qed.

Lemma date_iteration_windows_tiles_witness :
  snd (date_iteration_windows 738886 739431) = StopIteration
  /\ tiles 738886 739431 (fst (date_iteration_windows 738886 739431)).
Proof.
  assert (V1 : valid_date 738886) by (unfold valid_date, MINORDINAL, MAXORDINAL; lia).
  assert (V2 : valid_date 739431) by (unfold valid_date, MINORDINAL, MAXORDINAL; lia).
  assert (L : 738886 <= 739431) by lia.
  destruct (date_iteration_windows_tiles 738886 739431 V1 V2 L) as [Hstop Htiles].
  assert (E : snd (date_iteration_windows 738886 739431) = StopIteration).
  { apply Hstop. unfold MAXORDINAL, MAX_WINDOW_DAYS. lia. }
  split; [ exact E | exact (Htiles E) ].
Defined.

(** C1 as stated fails at [date.max]: on the range (9999-12-31, 9999-12-31)
    the first [current + delta] raises OverflowError and no window is
    yielded. *)
Lemma date_iteration_windows_overflow_at_date_max :
  valid_date MAXORDINAL
  /\ MAXORDINAL <= MAXORDINAL
  /\ date_iteration_windows MAXORDINAL MAXORDINAL
     = ([], GenRaise (OverflowError "date value out of range"))
  /\ ~ tiles MAXORDINAL MAXORDINAL
         (fst (date_iteration_windows MAXORDINAL MAXORDINAL)).
Proof.
  assert (E : date_iteration_windows MAXORDINAL MAXORDINAL
              = ([], GenRaise (OverflowError "date value out of range"))).
  { unfold date_iteration_windows. rewrite windows_from_body. reflexivity. }
  split; [ | split; [ | split ] ].
  - unfold valid_date, MINORDINAL, MAXORDINAL. lia.
  - lia.
  - exact E.
  - rewrite E. intros [Hfirst _ _ _ _ _]. discriminate Hfirst.
Qed.

Lemma windows_from_done (end_date current : date) :
  end_date < current -> windows_from end_date current = ([], StopIteration).
Proof.
  intros Hgt. rewrite windows_from_body.
  apply Z.leb_gt in Hgt. rewrite Hgt. reflexivity.
Qed.

Lemma windows_from_step (end_date current : date) :
  0 < current <= end_date ->
  current + (MAX_WINDOW_DAYS - 1) <= MAXORDINAL ->
  Z.min (current + (MAX_WINDOW_DAYS - 1)) end_date < MAXORDINAL ->
  let window_end := Z.min (current + (MAX_WINDOW_DAYS - 1)) end_date in
  windows_from end_date current
  = ((current, window_end) :: fst (windows_from end_date (window_end + 1)),
     snd (windows_from end_date (window_end + 1))).
Proof.
  intros [Hpos Hle] Hup Hnext window_end. rewrite windows_from_body.
  apply Z.leb_le in Hle as Hle'. rewrite Hle'.
  rewrite date_add_in_range by (unfold MAX_WINDOW_DAYS in *; lia).
  cbv zeta. fold window_end.
  rewrite date_add_in_range
    by (unfold window_end, MAX_WINDOW_DAYS in *; lia).
  reflexivity.
Qed.

Lemma windows_from_overflow (end_date current : date) :
  current <= end_date ->
  MAXORDINAL < current + (MAX_WINDOW_DAYS - 1) ->
  windows_from end_date current
  = ([], GenRaise (OverflowError "date value out of range")).
Proof.
  intros Hle Hgt. rewrite windows_from_body.
  apply Z.leb_le in Hle. rewrite Hle.
  rewrite date_add_overflow by assumption. reflexivity.
Qed.

(** C7, as the code has it: a one-day range (d, d) with [d] at most
    [date.max] minus 179 days yields the one window (d, d); a range of
    exactly 180 days that ends before [date.max] yields one window, the
    range itself; a range of 181 days that ends at most at [date.max] minus
    179 days yields two windows, the first 180 days and the last day.  In
    each case the generator then stops normally. *)
Theorem date_iteration_windows_boundaries :
  (forall d,
      valid_date d -> d <= MAXORDINAL - (MAX_WINDOW_DAYS - 1) ->
      date_iteration_windows d d = ([(d, d)], StopIteration))
  /\ (forall s,
         valid_date s -> s + (MAX_WINDOW_DAYS - 1) < MAXORDINAL ->
         date_iteration_windows s (s + (MAX_WINDOW_DAYS - 1))
         = ([(s, s + (MAX_WINDOW_DAYS - 1))], StopIteration))
  /\ (forall s,
         valid_date s ->
         s + MAX_WINDOW_DAYS <= MAXORDINAL - (MAX_WINDOW_DAYS - 1) ->
         date_iteration_windows s (s + MAX_WINDOW_DAYS)
         = ([(s, s + (MAX_WINDOW_DAYS - 1));
             (s + MAX_WINDOW_DAYS, s + MAX_WINDOW_DAYS)], StopIteration)).
Proof.
  unfold date_iteration_windows, valid_date, MINORDINAL.
  split; [ | split ].
  - intros d [Hd _] Hfar.
    rewrite windows_from_step by (unfold MAX_WINDOW_DAYS in *; lia).
    replace (Z.min (d + (MAX_WINDOW_DAYS - 1)) d) with d
      by (unfold MAX_WINDOW_DAYS; lia).
    rewrite windows_from_done by lia. reflexivity.
  - intros s [Hs _] Hfar.
    rewrite windows_from_step by (unfold MAX_WINDOW_DAYS in *; lia).
    rewrite Z.min_id.
    rewrite windows_from_done by lia. reflexivity.
  - intros s [Hs _] Hfar.
    rewrite windows_from_step by (unfold MAX_WINDOW_DAYS in *; lia).
    replace (Z.min (s + (MAX_WINDOW_DAYS - 1)) (s + MAX_WINDOW_DAYS))
      with (s + (MAX_WINDOW_DAYS - 1)) by (unfold MAX_WINDOW_DAYS; lia).
    replace (s + (MAX_WINDOW_DAYS - 1) + 1) with (s + MAX_WINDOW_DAYS)
      by (unfold MAX_WINDOW_DAYS; lia).
    rewrite windows_from_step by (unfold MAX_WINDOW_DAYS in *; lia).
    replace (Z.min (s + MAX_WINDOW_DAYS + (MAX_WINDOW_DAYS - 1))
                   (s + MAX_WINDOW_DAYS))
      with (s + MAX_WINDOW_DAYS) by (unfold MAX_WINDOW_DAYS; lia).
    rewrite windows_from_done by lia. reflexivity.
Qed.

Lemma date_iteration_windows_boundaries_witness :
  date_iteration_windows 738886 738886 = ([(738886, 738886)], StopIteration)
  /\ date_iteration_windows 738886 (738886 + (MAX_WINDOW_DAYS - 1))
     = ([(738886, 738886 + (MAX_WINDOW_DAYS - 1))], StopIteration)
  /\ date_iteration_windows 738886 (738886 + MAX_WINDOW_DAYS)
     = ([(738886, 738886 + (MAX_WINDOW_DAYS - 1));
         (738886 + MAX_WINDOW_DAYS, 738886 + MAX_WINDOW_DAYS)], StopIteration).
Proof.
  assert (V : valid_date 738886)
    by (unfold valid_date, MINORDINAL, MAXORDINAL; lia).
  destruct date_iteration_windows_boundaries as (Hday & Hmax & Hmore).
  split; [ | split ].
  - apply (Hday 738886 V). unfold MAXORDINAL, MAX_WINDOW_DAYS. lia.
  - apply (Hmax 738886 V). unfold MAXORDINAL, MAX_WINDOW_DAYS. lia.
  - apply (Hmore 738886 V). unfold MAXORDINAL, MAX_WINDOW_DAYS. lia.
Defined.

(** C7 as stated fails next to [date.max]: the one-day range
    (9999-12-31, 9999-12-31) does not yield the window (d, d) but none, and
    the 181-day range that ends on 9999-12-31 yields one window, not two;
    both end in OverflowError. *)
Lemma date_iteration_windows_boundaries_at_date_max :
  valid_date MAXORDINAL
  /\ date_iteration_windows MAXORDINAL MAXORDINAL
     = ([], GenRaise (OverflowError "date value out of range"))
  /\ fst (date_iteration_windows MAXORDINAL MAXORDINAL)
     <> [(MAXORDINAL, MAXORDINAL)]
  /\ valid_date (MAXORDINAL - MAX_WINDOW_DAYS)
  /\ date_iteration_windows (MAXORDINAL - MAX_WINDOW_DAYS)
                            (MAXORDINAL - MAX_WINDOW_DAYS + MAX_WINDOW_DAYS)
     = ([(MAXORDINAL - MAX_WINDOW_DAYS, MAXORDINAL - 1)],
        GenRaise (OverflowError "date value out of range"))
  /\ List.length
       (fst (date_iteration_windows
               (MAXORDINAL - MAX_WINDOW_DAYS)
               (MAXORDINAL - MAX_WINDOW_DAYS + MAX_WINDOW_DAYS)))
     <> 2%nat.
Proof.
  assert (E1 : date_iteration_windows MAXORDINAL MAXORDINAL
               = ([], GenRaise (OverflowError "date value out of range"))).
  { unfold date_iteration_windows.
    apply windows_from_overflow; unfold MAXORDINAL, MAX_WINDOW_DAYS; lia. }
  assert (E2 : date_iteration_windows
                 (MAXORDINAL - MAX_WINDOW_DAYS)
                 (MAXORDINAL - MAX_WINDOW_DAYS + MAX_WINDOW_DAYS)
               = ([(MAXORDINAL - MAX_WINDOW_DAYS, MAXORDINAL - 1)],
                  GenRaise (OverflowError "date value out of range"))).
  { unfold date_iteration_windows.
    rewrite windows_from_step by (unfold MAXORDINAL, MAX_WINDOW_DAYS; lia).
    replace (Z.min (MAXORDINAL - MAX_WINDOW_DAYS + (MAX_WINDOW_DAYS - 1))
                   (MAXORDINAL - MAX_WINDOW_DAYS + MAX_WINDOW_DAYS))
      with (MAXORDINAL - 1) by (unfold MAXORDINAL, MAX_WINDOW_DAYS; lia).
    rewrite windows_from_overflow
      by (unfold MAXORDINAL, MAX_WINDOW_DAYS; lia).
    reflexivity. }
  split; [ unfold valid_date, MINORDINAL, MAXORDINAL; lia | ].
  split; [ exact E1 | ].
  split; [ rewrite E1; discriminate | ].
  split; [ unfold valid_date, MINORDINAL, MAXORDINAL, MAX_WINDOW_DAYS; lia | ].
  split; [ exact E2 | ].
  rewrite E2. discriminate.
Qed.

(* ===================================================================== *)
(** ** Theorems: the poller *)
(* ===================================================================== *)

Lemma eq_str_true (v : json) (s : string) :
  eq_str v s = true <-> v = JStr s.
Proof.
  destruct v; simpl; try (split; [ discriminate | intros [=] ]).
  rewrite String.eqb_eq. split; [ intros ->; reflexivity | intros [= ->]; reflexivity ].
Qed.

Lemma is_none_true (v : json) : is_none v = true <-> v = JNull.
Proof.
  destruct v; simpl; split; intros E; try discriminate E; reflexivity.
Qed.

Lemma pending_test (status : json) :
  pending status <->
  (eq_str status "SUBMITTED" || eq_str status "PROCESSING" || is_none status)
  = true.
Proof.
  unfold pending.
  rewrite !orb_true_iff, !eq_str_true, is_none_true. tauto.
Qed.

Lemma pending_not_completed (status : json) :
  pending status -> eq_str status "COMPLETED" = false.
Proof.
  intros [-> | [-> | ->]]; reflexivity.
Qed.

Lemma py_range_length (lo hi : Z) :
  List.length (py_range lo hi) = Z.to_nat (hi - lo).
Proof.
  unfold py_range. rewrite length_map, length_seq. reflexivity.
Qed.

Section Poller.

Context {duration : Type}.
Variable H : host duration.

Lemma calls_app (tr more : trace duration) :
  calls (tr ++ more) = (calls tr + calls more)%nat.
Proof. unfold calls. rewrite filter_app, length_app. reflexivity. Qed.

Lemma fetches_app (tr more : trace duration) :
  fetches (tr ++ more) = (fetches tr + fetches more)%nat.
Proof. unfold fetches. rewrite filter_app, length_app. reflexivity. Qed.

Lemma sleeps_app (tr more : trace duration) :
  sleeps (tr ++ more) = (sleeps tr + sleeps more)%nat.
Proof. unfold sleeps. rewrite filter_app, length_app. reflexivity. Qed.

(** One status fetch that delivers a body. *)
Lemma get_report_once_delivered (s : session) (report_id data : json)
      (tr : trace duration) :
  delivered (network H (calls tr)) = Some data ->
  get_report_once H s report_id tr
  = (inr data, tr ++ [EvGet [Lit BASE_URL; Lit "/"; FStr report_id] 300]).
Proof.
  unfold delivered, get_report_once, session_get, http, bind,
    raise_for_status, response_json.
  destruct (network H (calls tr)) as [e | resp]; [ discriminate | ].
  destruct ((400 <=? status_code resp) && (status_code resp <? 600));
    [ discriminate | ].
  intros ->. reflexivity.
Qed.

Lemma reported_delivered (r : exn + response) (data status : json) :
  reported r = Some (data, status) ->
  delivered r = Some data
  /\ exists embedded,
      py_get data "_embedded" (JObj []) = inr (JObj embedded)
      /\ py_get (JObj embedded) "status" JNull = inr status.
Proof.
  unfold reported. destruct (delivered r) as [ [] | ]; try discriminate.
  simpl.
  destruct (dict_get members "_embedded" (JObj [])) eqn:E; try discriminate.
  intros [= <- <-]. split; [ reflexivity | ].
  exists members0. simpl. rewrite E. split; reflexivity.
Qed.

(** One turn of the poll loop on a fetch that reports a status: the ways
    on, as the loop body has them. *)
Lemma poll_attempt (s : session) (report_id : json) (poll_interval : duration)
      (max_polls attempt : Z) (later : list Z) (tr : trace duration)
      (data status : json) :
  reported (network H (calls tr)) = Some (data, status) ->
  poll_loop H s report_id poll_interval max_polls (attempt :: later) tr
  = let seen :=
      tr ++ [EvGet [Lit BASE_URL; Lit "/"; FStr report_id] 300;
             EvPrint [Lit "  Poll "; FInt attempt; Lit ": status=";
                      FStr status]] in
    if eq_str status "COMPLETED" then (inr data, seen)
    else if negb (eq_str status "SUBMITTED" || eq_str status "PROCESSING"
                  || is_none status)
    then (inl (RuntimeError
                 [Lit "Report "; FStr report_id;
                  Lit " ended in unexpected status "; FStr status;
                  Lit ": "; FDumps data]), seen)
    else match sleep_failure H poll_interval with
         | Some e => (inl e, seen)
         | None =>
             poll_loop H s report_id poll_interval max_polls later
                       (seen ++ [EvSleep poll_interval])
         end.
Proof.
  intros Hrep. apply reported_delivered in Hrep as (Hdel & embedded & He & Hs).
  cbn [poll_loop]. unfold bind at 1.
  rewrite (get_report_once_delivered _ _ _ _ Hdel).
  unfold bind at 1, lift at 1. rewrite He.
  unfold bind at 1, lift at 1. rewrite Hs.
  unfold bind at 1, print, emit. cbv zeta.
  rewrite <- app_assoc. simpl app.
  destruct (eq_str status "COMPLETED"); [ reflexivity | ].
  destruct (negb (eq_str status "SUBMITTED" || eq_str status "PROCESSING"
                  || is_none status)); [ reflexivity | ].
  unfold bind, sleep, emit, raise.
  destruct (sleep_failure H poll_interval); reflexivity.
Qed.

Lemma poll_loop_all_pending (s : session) (report_id : json)
      (poll_interval : duration) (max_polls : Z) (attempts : list Z) :
  sleep_failure H poll_interval = None ->
  forall tr : trace duration,
    (forall k, (k < List.length attempts)%nat ->
               exists data status,
                 reported (network H (calls tr + k)) = Some (data, status)
                 /\ pending status) ->
    exists tr',
      poll_loop H s report_id poll_interval max_polls attempts tr
      = (inl (TimeoutError
                [Lit "Report "; FStr report_id;
                 Lit " did not reach COMPLETED after "; FInt max_polls;
                 Lit " polls"]), tr')
      /\ fetches tr' = (fetches tr + List.length attempts)%nat
      /\ sleeps tr' = (sleeps tr + List.length attempts)%nat.
Proof.
  intros Hsleep.
  induction attempts as [ | attempt later IH ]; intros tr Hall.
  - exists tr. simpl. rewrite !Nat.add_0_r. repeat split; reflexivity.
  - destruct (Hall 0%nat) as (data & status & Hrep & Hpend);
      [ simpl; lia | ].
    rewrite Nat.add_0_r in Hrep.
    rewrite (poll_attempt _ _ _ _ _ _ _ _ _ Hrep). cbv zeta.
    rewrite (pending_not_completed _ Hpend).
    apply pending_test in Hpend as Htest. rewrite Htest. simpl negb. cbv iota.
    rewrite Hsleep.
    match goal with
    | |- context [poll_loop _ _ _ _ _ later ?tr2] =>
        destruct (IH tr2) as (tr' & Hrun & Hf & Hs)
    end.
    + intros k Hk.
      replace (calls ((tr ++ [EvGet [Lit BASE_URL; Lit "/"; FStr report_id] 300;
                              EvPrint [Lit "  Poll "; FInt attempt;
                                       Lit ": status="; FStr status]])
                      ++ [EvSleep poll_interval]) + k)%nat
        with (calls tr + S k)%nat
        by (rewrite !calls_app; unfold calls; simpl; lia).
      apply Hall. simpl. lia.
    + exists tr'. split; [ exact Hrun | ].
      rewrite Hf, Hs, !fetches_app, !sleeps_app.
      unfold fetches, sleeps. simpl. lia.
Qed.

(** C2, as the code has it: with a positive [max_polls] and a poll interval
    that [time.sleep] accepts, when each of the [max_polls] status fetches
    reports SUBMITTED, PROCESSING or no status, [wait_for_report] makes
    exactly [max_polls] fetches and ends in a TimeoutError whose message
    names the report identifier and the number of polls. *)
Theorem wait_for_report_times_out (s : session) (report_id : json)
        (poll_interval : duration) (max_polls : Z) (tr : trace duration) :
  0 < max_polls ->
  sleep_failure H poll_interval = None ->
  (forall k, (k < Z.to_nat max_polls)%nat ->
             exists data status,
               reported (network H (calls tr + k)) = Some (data, status)
               /\ pending status) ->
  exists msg tr',
    wait_for_report H s report_id poll_interval max_polls tr
    = (inl (TimeoutError msg), tr')
    /\ msg = [Lit "Report "; FStr report_id;
              Lit " did not reach COMPLETED after "; FInt max_polls;
              Lit " polls"]
    /\ fetches tr' = (fetches tr + Z.to_nat max_polls)%nat.
Proof.
  intros Hpos Hsleep Hall. unfold wait_for_report.
  destruct (poll_loop_all_pending s report_id poll_interval max_polls
              (py_range 1 (max_polls + 1)) Hsleep tr)
    as (tr' & Hrun & Hf & _).
  - rewrite py_range_length.
    replace (max_polls + 1 - 1) with max_polls by lia. exact Hall.
  - rewrite py_range_length in Hf.
    replace (max_polls + 1 - 1) with max_polls in Hf by lia.
    eexists. exists tr'. split; [ exact Hrun | ].
    split; [ reflexivity | exact Hf ].
Qed.

(** C3, as the code has it: in a poll attempt whose fetch reports a status,
    SUBMITTED, PROCESSING or no status makes the loop sleep for the poll
    interval and, when [time.sleep] accepts the interval, go on with the
    attempts that are left; when [time.sleep] refuses it, the call ends in
    that exception with no further fetch.  A status that is none of these,
    COMPLETED apart (it is looked at first and returns the body), ends the
    call at once, with no fetch after this one, in a RuntimeError whose
    message carries the status and the body. *)
Theorem poll_attempt_outcome (s : session) (report_id : json)
        (poll_interval : duration) (max_polls attempt : Z) (later : list Z)
        (tr : trace duration) (data status : json) :
  reported (network H (calls tr)) = Some (data, status) ->
  let seen :=
    tr ++ [EvGet [Lit BASE_URL; Lit "/"; FStr report_id] 300;
           EvPrint [Lit "  Poll "; FInt attempt; Lit ": status=";
                    FStr status]] in
  (pending status ->
   sleep_failure H poll_interval = None ->
   poll_loop H s report_id poll_interval max_polls (attempt :: later) tr
   = poll_loop H s report_id poll_interval max_polls later
               (seen ++ [EvSleep poll_interval]))
  /\ (pending status ->
      forall e, sleep_failure H poll_interval = Some e ->
      poll_loop H s report_id poll_interval max_polls (attempt :: later) tr
      = (inl e, seen))
  /\ (~ pending status -> status <> JStr "COMPLETED" ->
      exists msg,
        poll_loop H s report_id poll_interval max_polls (attempt :: later) tr
        = (inl (RuntimeError msg), seen)
        /\ In (FStr status) msg
        /\ reports_body (RuntimeError msg) data
        /\ fetches seen = (fetches tr + 1)%nat).
Proof.
  intros Hrep seen.
  pose proof (poll_attempt s report_id poll_interval max_polls attempt later
                           tr data status Hrep) as Hstep.
  cbv zeta in Hstep. fold seen in Hstep. split; [ | split ].
  - intros Hpend Hsleep. rewrite Hstep.
    rewrite (pending_not_completed _ Hpend).
    apply pending_test in Hpend. rewrite Hpend, Hsleep. reflexivity.
  - intros Hpend e Hsleep. rewrite Hstep.
    rewrite (pending_not_completed _ Hpend).
    apply pending_test in Hpend. rewrite Hpend, Hsleep. reflexivity.
  - intros Hnot Hother. rewrite Hstep.
    destruct (eq_str status "COMPLETED") eqn:Ec.
    + apply eq_str_true in Ec. contradiction.
    + destruct (eq_str status "SUBMITTED" || eq_str status "PROCESSING"
                || is_none status) eqn:Et.
      * apply pending_test in Et. contradiction.
      * simpl negb. cbv iota. eexists. split; [ reflexivity | ].
        split; [ simpl; tauto | ]. split; [ simpl; tauto | ].
        unfold seen. rewrite fetches_app. unfold fetches. reflexivity.
Qed.

(** C8: when [max_polls] allows a first fetch and that fetch reports
    COMPLETED, [wait_for_report] returns the fetched body as it is, after
    that one fetch and without sleeping. *)
Theorem wait_for_report_completed_at_once (s : session) (report_id : json)
        (poll_interval : duration) (max_polls : Z) (tr : trace duration)
        (data : json) :
  1 <= max_polls ->
  reported (network H (calls tr)) = Some (data, JStr "COMPLETED") ->
  exists tr',
    wait_for_report H s report_id poll_interval max_polls tr = (inr data, tr')
    /\ fetches tr' = (fetches tr + 1)%nat
    /\ sleeps tr' = sleeps tr.
Proof.
  intros Hpolls Hrep. unfold wait_for_report, py_range.
  replace (Z.to_nat (max_polls + 1 - 1)) with (S (Z.to_nat (max_polls - 1)))
    by lia.
  cbn [seq map].
  rewrite (poll_attempt _ _ _ _ _ _ _ _ _ Hrep). cbv zeta. simpl eq_str.
  cbv iota. eexists. split; [ reflexivity | ].
  rewrite fetches_app, sleeps_app. unfold fetches, sleeps. simpl. split; lia.
Qed.

(** C10: with [max_polls <= 0] the loop body is never entered:
    [wait_for_report] ends in TimeoutError at once and leaves the trace as
    it found it, so there is no fetch and no sleep. *)
Theorem wait_for_report_no_budget (s : session) (report_id : json)
        (poll_interval : duration) (max_polls : Z) (tr : trace duration) :
  max_polls <= 0 ->
  wait_for_report H s report_id poll_interval max_polls tr
  = (inl (TimeoutError
            [Lit "Report "; FStr report_id;
             Lit " did not reach COMPLETED after "; FInt max_polls;
             Lit " polls"]), tr).
Proof.
  intros Hnone. unfold wait_for_report, py_range.
  replace (Z.to_nat (max_polls + 1 - 1)) with 0%nat by lia.
  reflexivity.
Qed.

End Poller.

Lemma wait_for_report_times_out_witness :
  exists msg tr',
    wait_for_report
      (replay [ok_response (status_body (JStr "PROCESSING"));
               ok_response (status_body JNull)])
      Session (JStr "r1") 5 2 ([] : trace Z)
    = (inl (TimeoutError msg), tr')
    /\ msg = [Lit "Report "; FStr (JStr "r1");
              Lit " did not reach COMPLETED after "; FInt 2; Lit " polls"]
    /\ fetches tr' = (fetches ([] : trace Z) + Z.to_nat 2)%nat.
Proof.
  apply wait_for_report_times_out.
  - lia.
  - reflexivity.
  - intros k Hk.
    destruct k as [ | [ | k ] ].
    + exists (status_body (JStr "PROCESSING")), (JStr "PROCESSING").
      split; [ reflexivity | right; left; reflexivity ].
    + exists (status_body JNull), JNull.
      split; [ reflexivity | right; right; reflexivity ].
    + simpl in Hk. lia.
Defined.

(** C2 as stated fails for a poll interval that [time.sleep] refuses: with
    [--poll-interval -1] and [max_polls = 1], the one fetch reports
    PROCESSING, and the call ends in the ValueError of [time.sleep], not in
    a TimeoutError. *)
Lemma wait_for_report_negative_interval :
  let H := replay [ok_response (status_body (JStr "PROCESSING"))] in
  0 < 1
  /\ (forall k, (k < Z.to_nat 1)%nat ->
                exists data status,
                  reported (network H (calls ([] : trace Z) + k))
                  = Some (data, status)
                  /\ pending status)
  /\ wait_for_report H Session (JStr "r1") (-1) 1 ([] : trace Z)
     = (inl (ValueError "sleep length must be non-negative"),
        [EvGet [Lit BASE_URL; Lit "/"; FStr (JStr "r1")] 300;
         EvPrint [Lit "  Poll "; FInt 1; Lit ": status=";
                  FStr (JStr "PROCESSING")]])
  /\ ~ (exists msg tr',
           wait_for_report H Session (JStr "r1") (-1) 1 ([] : trace Z)
           = (inl (TimeoutError msg), tr')).
Proof.
  intros H. split; [ lia | ]. split; [ | split ].
  - intros k Hk. destruct k as [ | k ]; [ | simpl in Hk; lia ].
    exists (status_body (JStr "PROCESSING")), (JStr "PROCESSING").
    split; [ reflexivity | right; left; reflexivity ].
  - reflexivity.
  - intros (msg & tr' & Hrun). discriminate Hrun.
Qed.

Lemma poll_attempt_outcome_witness :
  let H := replay [ok_response (status_body (JStr "FAILED"))] in
  let seen :=
    [EvGet [Lit BASE_URL; Lit "/"; FStr (JStr "r1")] 300;
     EvPrint [Lit "  Poll "; FInt 1; Lit ": status="; FStr (JStr "FAILED")]] in
  exists msg,
    poll_loop H Session (JStr "r1") 5 2 [1; 2] ([] : trace Z)
    = (inl (RuntimeError msg), seen)
    /\ In (FStr (JStr "FAILED")) msg
    /\ reports_body (RuntimeError msg) (status_body (JStr "FAILED"))
    /\ fetches seen = (fetches ([] : trace Z) + 1)%nat.
Proof.
  intros H seen.
  apply (poll_attempt_outcome H Session (JStr "r1") 5 2 1 [2] []
           (status_body (JStr "FAILED")) (JStr "FAILED")).
  - reflexivity.
  - intros [E | [E | E]]; discriminate E.
  - discriminate.
Defined.

(** C3 as stated fails for a poll interval that [time.sleep] refuses: with
    [--poll-interval -1] a fetch reporting PROCESSING does not take the loop
    to its next attempt; the call ends in the ValueError of [time.sleep]
    after this one fetch, though a second attempt was left. *)
Lemma poll_attempt_pending_sleep_refused :
  let H := replay [ok_response (status_body (JStr "PROCESSING"));
                   ok_response (status_body (JStr "COMPLETED"))] in
  reported (network H (calls ([] : trace Z)))
  = Some (status_body (JStr "PROCESSING"), JStr "PROCESSING")
  /\ pending (JStr "PROCESSING")
  /\ poll_loop H Session (JStr "r1") (-1) 2 [1; 2] ([] : trace Z)
     = (inl (ValueError "sleep length must be non-negative"),
        [EvGet [Lit BASE_URL; Lit "/"; FStr (JStr "r1")] 300;
         EvPrint [Lit "  Poll "; FInt 1; Lit ": status=";
                  FStr (JStr "PROCESSING")]])
  /\ fetches (snd (poll_loop H Session (JStr "r1") (-1) 2 [1; 2]
                             ([] : trace Z)))
     = 1%nat.
Proof.
  intros H. split; [ reflexivity | ].
  split; [ right; left; reflexivity | ].
  split; reflexivity.
Qed.

Lemma wait_for_report_completed_at_once_witness :
  exists tr',
    wait_for_report (replay [ok_response (status_body (JStr "COMPLETED"))])
                    Session (JStr "r1") 5 40 ([] : trace Z)
    = (inr (status_body (JStr "COMPLETED")), tr')
    /\ fetches tr' = (fetches ([] : trace Z) + 1)%nat
    /\ sleeps tr' = sleeps ([] : trace Z).
Proof.
  apply wait_for_report_completed_at_once.
  - lia.
  - reflexivity.
Defined.

Lemma wait_for_report_no_budget_witness :
  wait_for_report (replay []) Session (JStr "r1") 5 0 ([] : trace Z)
  = (inl (TimeoutError
            [Lit "Report "; FStr (JStr "r1");
             Lit " did not reach COMPLETED after "; FInt 0; Lit " polls"]),
     []).
Proof.
  apply wait_for_report_no_budget. lia.
Defined.

(* ===================================================================== *)
(** ** Theorems: payload and requester *)
(* ===================================================================== *)

Section Requester.

Context {duration : Type}.
Variable H : host duration.

(** C6: the payload has an "end_date" exactly when the window ends after it
    starts, and then it is the end date; it always has the report type
    "AUDIT" and the start date of the window. *)
Theorem build_audit_payload_fields (window_start window_end : date) :
  let payload := build_audit_payload H window_start window_end in
  (dict_lookup "end_date" payload <> None <-> window_start < window_end)
  /\ (window_start < window_end ->
      dict_lookup "end_date" payload
      = Some (JStr (strftime_Ymd H window_end)))
  /\ dict_lookup "report_type" payload = Some (JStr "AUDIT")
  /\ dict_lookup "start_date" payload
     = Some (JStr (strftime_Ymd H window_start)).
Proof.
  unfold build_audit_payload.
  destruct (window_end >? window_start) eqn:E; simpl.
  - apply Z.gtb_lt in E.
    split; [ split; [ intros _; exact E | discriminate ] | ].
    split; [ reflexivity | ]. split; reflexivity.
  - rewrite Z.gtb_ltb in E. apply Z.ltb_ge in E.
    split; [ split; [ intros Hne; contradiction Hne; reflexivity | lia ] | ].
    split; [ lia | ]. split; reflexivity.
Qed.

(** The POST goes through and the body is JSON. *)
Lemma request_report_delivered (s : session) (payload : dict)
      (tr : trace duration) (data : json) :
  delivered (network H (calls tr)) = Some data ->
  request_report H s payload tr
  = (embedded <- lift (py_get data "_embedded" (JObj [])) ;;
     top <- lift (py_get data "id" JNull) ;;
     report_id <- (if truthy top then ret top
                   else lift (py_get embedded "id" JNull)) ;;
     if negb (truthy report_id) then
       raise (RuntimeError
                [Lit "No 'id' in response from "; Lit BASE_URL; Lit ": ";
                 FDumps data])
     else ret report_id) (tr ++ [EvPost BASE_URL (JObj payload) 60]).
Proof.
  unfold delivered, request_report, session_post, http, raise_for_status,
    response_json.
  unfold bind at 1.
  destruct (network H (calls tr)) as [e | resp]; [ discriminate | ].
  unfold bind at 1.
  destruct ((400 <=? status_code resp) && (status_code resp <? 600));
    [ discriminate | ].
  intros Hb. unfold ret at 1. unfold bind at 1. rewrite Hb. reflexivity.
Qed.

(** C4, as the code has it: when the parsed body of the submission is a
    JSON object, [request_report] returns its "id" member when that is
    truthy; otherwise, when its "_embedded" member is absent or is an
    object, it returns the "id" member of that when truthy, and else ends in
    a RuntimeError whose message quotes the body. *)
Theorem request_report_fallback (s : session) (payload : dict)
        (tr : trace duration) (members : dict) :
  delivered (network H (calls tr)) = Some (JObj members) ->
  let seen := tr ++ [EvPost BASE_URL (JObj payload) 60] in
  let top := dict_get members "id" JNull in
  (truthy top = true ->
   request_report H s payload tr = (inr top, seen))
  /\ (truthy top = false ->
      forall embedded,
        dict_get members "_embedded" (JObj []) = JObj embedded ->
        let nested := dict_get embedded "id" JNull in
        (truthy nested = true ->
         request_report H s payload tr = (inr nested, seen))
        /\ (truthy nested = false ->
            exists msg,
              request_report H s payload tr = (inl (RuntimeError msg), seen)
              /\ reports_body (RuntimeError msg) (JObj members))).
Proof.
  intros Hdel seen top.
  rewrite (request_report_delivered s payload tr _ Hdel). fold seen.
  unfold bind, lift, ret, raise. simpl py_get. fold top. split.
  - intros Ht. rewrite Ht. rewrite Ht. reflexivity.
  - intros Ht embedded He. rewrite Ht, He. simpl py_get.
    split.
    + intros Hn. rewrite Hn. reflexivity.
    + intros Hn. rewrite Hn. simpl negb. cbv iota.
      eexists. split; [ reflexivity | ]. simpl. tauto.
Qed.

End Requester.

Lemma build_audit_payload_fields_witness :
  let payload := build_audit_payload (replay []) 738886 739065 in
  (dict_lookup "end_date" payload <> None <-> 738886 < 739065)
  /\ dict_lookup "end_date" payload = Some (JStr "2024-06-28")
  /\ dict_lookup "report_type" payload = Some (JStr "AUDIT")
  /\ dict_lookup "start_date" payload = Some (JStr "2024-01-01").
Proof.
  destruct (build_audit_payload_fields (replay []) 738886 739065)
    as (Hiff & Hend & Htype & Hstart).
  split; [ exact Hiff | ]. split; [ apply Hend; lia | ].
  split; [ exact Htype | exact Hstart ].
Defined.

Lemma request_report_fallback_witness :
  let H := replay [ok_response
                     (JObj [("_embedded", JObj [("id", JStr "r1")])])] in
  request_report H Session [] ([] : trace Z)
  = (inr (JStr "r1"), [EvPost BASE_URL (JObj []) 60]).
Proof.
  intros H.
  destruct (request_report_fallback H Session [] ([] : trace Z)
              [("_embedded", JObj [("id", JStr "r1")])] eq_refl)
    as [_ Hnested].
  destruct (Hnested eq_refl [("id", JStr "r1")] eq_refl) as [Hfound _].
  exact (Hfound eq_refl).
Defined.

(** C4 as stated fails on a body whose "_embedded" is null: neither place
    holds an identifier, and the call ends in the AttributeError of
    [None.get], whose message does not quote the body.  It fails as well on
    a body that is no object at all. *)
Lemma request_report_null_embedded :
  let data := JObj [("_embedded", JNull)] in
  let H := replay [ok_response data] in
  delivered (network H (calls ([] : trace Z))) = Some data
  /\ request_report H Session [] ([] : trace Z)
     = (inl (AttributeError "'NoneType' object has no attribute 'get'"),
        [EvPost BASE_URL (JObj []) 60])
  /\ ~ reports_body
         (AttributeError "'NoneType' object has no attribute 'get'") data
  /\ request_report (replay [ok_response (JArr [])]) Session []
                    ([] : trace Z)
     = (inl (AttributeError "'list' object has no attribute 'get'"),
        [EvPost BASE_URL (JObj []) 60]).
Proof.
  intros data H. split; [ reflexivity | ]. split; [ reflexivity | ].
  split; [ | reflexivity ]. intros [].
Qed.

(* ===================================================================== *)
(** ** Theorems: the orchestrator *)
(* ===================================================================== *)

Section Orchestrator.

Context {duration : Type}.
Variable H : host duration.

(** C5: when the start date read from the arguments lies after the end date
    the run works with, [main] ends in the ValueError of its check and the
    trace is the one it started from: no session is made, nothing is sent,
    nothing is printed or written. *)
Theorem main_rejects_reversed_range (args : arguments duration)
        (tr : trace duration) (start_date end_date : date) :
  fromisoformat H (arg_start_date args) = inr start_date ->
  resolved_end_date H args = inr end_date ->
  end_date < start_date ->
  main H args tr
  = (inl (ValueError "start-date must be on or before end-date"), tr).
Proof.
  intros Hs He Hlt. unfold main, to_date.
  unfold bind at 1, lift at 1. rewrite Hs.
  unfold resolved_end_date in He. unfold bind at 1.
  assert (Hgt : (start_date >? end_date) = true) by (apply Z.gtb_lt; lia).
  destruct (arg_end_date args) as [value | ].
  - destruct (negb (value =? EmptyString)%string).
    + unfold lift. rewrite He, Hgt. reflexivity.
    + unfold ret. injection He as <-. rewrite Hgt. reflexivity.
  - unfold ret. injection He as <-. rewrite Hgt. reflexivity.
Qed.

(** *** Runs that write nothing *)

Lemma extends_quietly_refl (tr : trace duration) : extends_quietly tr tr.
Proof. exists []. rewrite app_nil_r. split; [ reflexivity | constructor ]. Qed.

Lemma extends_quietly_trans (tr1 tr2 tr3 : trace duration) :
  extends_quietly tr1 tr2 -> extends_quietly tr2 tr3 ->
  extends_quietly tr1 tr3.
Proof.
  intros (m1 & -> & F1) (m2 & -> & F2). exists (m1 ++ m2).
  rewrite app_assoc. split; [ reflexivity | ].
  apply Forall_app. split; assumption.
Qed.

Lemma quiet_ret {A} (a : A) : quiet duration (ret a).
Proof. intros tr r tr' [= <- <-]. apply extends_quietly_refl. Qed.

Lemma quiet_raise {A} (e : exn) : quiet duration (raise (A:=A) e).
Proof. intros tr r tr' [= <- <-]. apply extends_quietly_refl. Qed.

Lemma quiet_lift {A} (x : exn + A) : quiet duration (lift x).
Proof. intros tr r tr' [= <- <-]. apply extends_quietly_refl. Qed.

Lemma quiet_emit (ev : event duration) :
  is_file_event ev = false -> quiet duration (emit ev).
Proof.
  intros Hev tr r tr' [= <- <-]. exists [ev].
  split; [ reflexivity | constructor; [ assumption | constructor ] ].
Qed.

Lemma quiet_http (ev : event duration) :
  is_file_event ev = false -> quiet duration (http H ev).
Proof.
  intros Hev tr r tr' [= <- <-]. exists [ev].
  split; [ reflexivity | constructor; [ assumption | constructor ] ].
Qed.

Lemma quiet_bind {A B} (m : M duration A) (f : A -> M duration B) :
  quiet duration m -> (forall a, quiet duration (f a)) ->
  quiet duration (bind m f).
Proof.
  intros Hm Hf tr r tr'. unfold bind.
  destruct (m tr) as [[e | a] tr1] eqn:Em.
  - intros [= <- <-]. exact (Hm _ _ _ Em).
  - intros Ef. apply (extends_quietly_trans _ tr1).
    + exact (Hm _ _ _ Em).
    + exact (Hf a _ _ _ Ef).
Qed.

Lemma quiet_if {A} (b : bool) (m1 m2 : M duration A) :
  quiet duration m1 -> quiet duration m2 ->
  quiet duration (if b then m1 else m2).
Proof. destruct b; intros; assumption. Qed.

Lemma quiet_response_json (resp : response) :
  quiet duration (response_json resp).
Proof.
  unfold response_json.
  destruct (body resp); [ apply quiet_ret | apply quiet_raise ].
Qed.

Lemma quiet_sleep (seconds : duration) : quiet duration (sleep H seconds).
Proof.
  unfold sleep. destruct (sleep_failure H seconds);
    [ apply quiet_raise | apply quiet_emit; reflexivity ].
Qed.

Ltac quiet_steps :=
  repeat first
    [ assumption
    | apply quiet_ret | apply quiet_raise | apply quiet_lift
    | apply quiet_sleep
    | apply quiet_emit; reflexivity | apply quiet_http; reflexivity
    | apply quiet_response_json
    | apply quiet_if
    | apply quiet_bind; [ | intros ? ] ].

Lemma quiet_request_report (s : session) (payload : dict) :
  quiet duration (request_report H s payload).
Proof. unfold request_report. quiet_steps. Qed.

Lemma quiet_poll_loop (s : session) (report_id : json)
      (poll_interval : duration) (max_polls : Z) (attempts : list Z) :
  quiet duration
        (poll_loop H s report_id poll_interval max_polls attempts).
Proof.
  induction attempts as [ | attempt later IH ]; cbn [poll_loop];
    quiet_steps.
Qed.

Lemma quiet_fetch_audit_window (s : session) (window_start window_end : date)
      (sleep_between_windows poll_interval : duration) (max_polls : Z) :
  quiet duration (fetch_audit_window H s window_start window_end
                            sleep_between_windows poll_interval max_polls).
Proof.
  pose proof quiet_poll_loop as Hpoll.
  unfold fetch_audit_window, wait_for_report. cbv zeta.
  quiet_steps; apply Hpoll.
Qed.

Lemma bind_inr {A B} (m : M duration A) (f : A -> M duration B)
      (tr tr' : trace duration) (b : B) :
  bind m f tr = (inr b, tr') ->
  exists a tr1, m tr = (inr a, tr1) /\ f a tr1 = (inr b, tr').
Proof.
  unfold bind. destruct (m tr) as [[e | a] tr1]; [ discriminate | ].
  intros Ef. exists a, tr1. split; [ reflexivity | exact Ef ].
Qed.

Lemma sleep_inr (seconds : duration) (tr tr' : trace duration) (x : unit) :
  sleep H seconds tr = (inr x, tr') ->
  sleep_failure H seconds = None /\ tr' = tr ++ [EvSleep seconds].
Proof.
  unfold sleep. destruct (sleep_failure H seconds); [ discriminate | ].
  intros [= _ <-]. split; reflexivity.
Qed.

Lemma dump_to_file_inr (path : string) (doc : json) (indent : Z)
      (tr tr' : trace duration) (x : unit) :
  dump_to_file H path doc indent tr = (inr x, tr') ->
  tr' = tr ++ [EvOpen path; EvDump path doc indent].
Proof.
  unfold dump_to_file.
  destruct (open_for_writing H path); [ discriminate | ].
  unfold bind, emit.
  destruct (dump_failure H path); [ discriminate | ].
  intros [= _ <-]. rewrite <- app_assoc. reflexivity.
Qed.

(** The strings [fetch_audit_window] reads back from the payload. *)
Lemma payload_strings (window_start window_end : date) :
  window_start <= window_end ->
  let payload := build_audit_payload H window_start window_end in
  dict_getitem payload "start_date"
  = inr (JStr (strftime_Ymd H window_start))
  /\ dict_get payload "end_date" (JStr (strftime_Ymd H window_start))
     = JStr (strftime_Ymd H window_end).
Proof.
  intros Hle. unfold build_audit_payload.
  destruct (window_end >? window_start) eqn:E.
  - split; reflexivity.
  - rewrite Z.gtb_ltb in E. apply Z.ltb_ge in E.
    assert (window_end = window_start) as -> by lia.
    split; reflexivity.
Qed.

End Orchestrator.

Lemma main_rejects_reversed_range_witness :
  main (replay []) (sample_arguments "2024-01-02" (Some "2024-01-01") 40)
       ([] : trace Z)
  = (inl (ValueError "start-date must be on or before end-date"), []).
Proof.
  apply (main_rejects_reversed_range
           (replay []) (sample_arguments "2024-01-02" (Some "2024-01-01") 40)
           [] 738887 738886).
  - reflexivity.
  - reflexivity.
  - lia.
Defined.


(* ===================================================================== *)
(** ** More on the windower *)
(* ===================================================================== *)

(** The windows in closed form. *)
Lemma windows_nth (start_date end_date : date) (i : nat)
        (w : window) :
  nth_error (fst (date_iteration_windows start_date end_date)) i = Some w ->
  w = (start_date + MAX_WINDOW_DAYS * Z.of_nat i,
       Z.min (start_date + MAX_WINDOW_DAYS * Z.of_nat i
              + (MAX_WINDOW_DAYS - 1)) end_date).
Proof.
  unfold date_iteration_windows. revert i w.
  pattern start_date, (windows_from end_date start_date).
  apply windows_from_ind; clear start_date; simpl fst.
  - intros current _ i w Hi. destruct i; discriminate Hi.
  - intros current e _ _ i w Hi. destruct i; discriminate Hi.
  - intros current upper e _ Hup _ i w Hi.
    apply date_add_inr in Hup as [-> _].
    destruct i as [ | i ]; [ | destruct i; discriminate Hi ].
    injection Hi as <-. unfold MAX_WINDOW_DAYS.
    f_equal; [ lia | f_equal; lia ].
  - intros current upper next Hle Hup Hnext IH i w Hi.
    apply date_add_inr in Hup as [-> _]. apply date_add_inr in Hnext as [-> _].
    destruct i as [ | i ].
    + injection Hi as <-. unfold MAX_WINDOW_DAYS.
      f_equal; [ lia | f_equal; lia ].
    + simpl in Hi.
      destruct (Z_lt_ge_dec (current + (MAX_WINDOW_DAYS - 1)) end_date)
        as [Hfull | Hlast].
      * rewrite (IH i w Hi). unfold MAX_WINDOW_DAYS in *.
        f_equal; lia.
      * rewrite windows_from_done in Hi
          by (unfold MAX_WINDOW_DAYS in *; lia).
        destruct i; discriminate Hi.
Qed.

(** X1: the [i]-th window the generator yields, counted from 0, starts
    [180 * i] days after [start_date] and ends 179 days later or at
    [end_date], whichever comes first -- also in a run that ends in an
    exception. *)
Theorem date_iteration_windows_nth (start_date end_date : date) (i : nat)
        (w : window) :
  nth_error (fst (date_iteration_windows start_date end_date)) i = Some w ->
  w = (start_date + MAX_WINDOW_DAYS * Z.of_nat i,
       Z.min (start_date + MAX_WINDOW_DAYS * Z.of_nat i
              + (MAX_WINDOW_DAYS - 1)) end_date).
Proof. exact (windows_nth start_date end_date i w). Qed.

Lemma date_iteration_windows_nth_witness :
  (738886 + MAX_WINDOW_DAYS, 738886 + MAX_WINDOW_DAYS)
  = (738886 + MAX_WINDOW_DAYS * Z.of_nat 1,
     Z.min (738886 + MAX_WINDOW_DAYS * Z.of_nat 1 + (MAX_WINDOW_DAYS - 1))
           (738886 + MAX_WINDOW_DAYS)).
Proof.
  apply (date_iteration_windows_nth 738886 (738886 + MAX_WINDOW_DAYS) 1).
  vm_compute. reflexivity.
Defined.

Lemma windows_from_count (end_date current : date) :
  current <= end_date + 1 ->
  snd (windows_from end_date current) = StopIteration ->
  Z.of_nat (List.length (fst (windows_from end_date current)))
  = (end_date - current + MAX_WINDOW_DAYS) / MAX_WINDOW_DAYS.
Proof.
  pattern current, (windows_from end_date current).
  apply windows_from_ind; clear current; cbn [fst snd List.length].
  - intros current Hgt Hle _. unfold MAX_WINDOW_DAYS.
    symmetry. apply Z.div_small. lia.
  - intros current e _ _ _ Hend. discriminate Hend.
  - intros current upper e _ _ _ _ Hend. discriminate Hend.
  - intros current upper next Hle Hup Hnext IH _ Hend.
    apply date_add_inr in Hup as [-> _]. apply date_add_inr in Hnext as [-> _].
    rewrite Nat2Z.inj_succ, IH by (assumption || lia).
    unfold MAX_WINDOW_DAYS.
    destruct (Z_lt_ge_dec (current + (180 - 1)) end_date) as [Hfull | Hlast].
    + rewrite Z.min_l by lia.
      replace (end_date - current + 180)
        with (end_date - (current + (180 - 1) + 1) + 180 + 1 * 180) by lia.
      rewrite Z.div_add by lia. lia.
    + rewrite Z.min_r by lia.
      rewrite (Z.div_small (end_date - (end_date + 1) + 180)) by lia.
      replace (end_date - current + 180)
        with (end_date - current + 1 * 180) by lia.
      rewrite Z.div_add by lia. rewrite Z.div_small by lia. lia.
Qed.

(** X2: a range [start_date <= end_date] on which the generator runs to
    its end is cut into [(end_date - start_date) / 180 + 1] windows. *)
Theorem date_iteration_windows_count (start_date end_date : date) :
  start_date <= end_date ->
  snd (date_iteration_windows start_date end_date) = StopIteration ->
  Z.of_nat (List.length (fst (date_iteration_windows start_date end_date)))
  = (end_date - start_date) / MAX_WINDOW_DAYS + 1.
Proof.
  intros Hle Hend. unfold date_iteration_windows in *.
  rewrite windows_from_count by (assumption || lia).
  replace (end_date - start_date + MAX_WINDOW_DAYS)
    with (end_date - start_date + 1 * MAX_WINDOW_DAYS) by lia.
  rewrite Z.div_add by (unfold MAX_WINDOW_DAYS; lia). reflexivity.
Qed.

Lemma date_iteration_windows_count_witness :
  Z.of_nat (List.length (fst (date_iteration_windows 738886 739431)))
  = (739431 - 738886) / MAX_WINDOW_DAYS + 1.
Proof.
  apply date_iteration_windows_count.
  - lia.
  - apply windows_from_stops; unfold MAX_WINDOW_DAYS, MAXORDINAL; lia.
Defined.

(** X3: every window the generator yields, except the last one it yields,
    spans exactly 180 days. *)
Theorem date_iteration_windows_full_but_last (start_date end_date : date)
        (i : nat) (w : window) :
  nth_error (fst (date_iteration_windows start_date end_date)) i = Some w ->
  (S i < List.length (fst (date_iteration_windows start_date end_date)))%nat ->
  span w = MAX_WINDOW_DAYS.
Proof.
  intros Hw Hnext.
  destruct (nth_error (fst (date_iteration_windows start_date end_date)) (S i))
    as [w' | ] eqn:Hw'.
  - apply windows_nth in Hw as Ew.
    apply windows_nth in Hw' as Ew'.
    assert (Hin : fst w' <= end_date).
    { clear Ew Ew' Hw Hnext. apply nth_error_In in Hw'.
      revert w' Hw'. unfold date_iteration_windows.
      pattern start_date, (windows_from end_date start_date).
      apply windows_from_ind; clear start_date; simpl fst.
      - intros current _ w' [].
      - intros current e _ _ w' [].
      - intros current upper e Hle _ _ w' [<- | []]. exact Hle.
      - intros current upper next Hle _ _ IH w' [<- | Hin];
          [ exact Hle | exact (IH w' Hin) ]. }
    subst w w'. unfold span, MAX_WINDOW_DAYS in *. cbn [fst snd] in *. lia.
  - apply nth_error_None in Hw'. lia.
Qed.

Lemma date_iteration_windows_full_but_last_witness :
  span (738886, 739065) = MAX_WINDOW_DAYS.
Proof.
  apply (date_iteration_windows_full_but_last 738886 739431 0).
  - vm_compute. reflexivity.
  - vm_compute. lia.
Defined.

Lemma windows_from_stops_iff (end_date current : date) :
  0 < current -> end_date <= MAXORDINAL ->
  (snd (windows_from end_date current) = StopIteration
   <-> end_date < current
       \/ (current
           + MAX_WINDOW_DAYS * ((end_date - current) / MAX_WINDOW_DAYS)
           + (MAX_WINDOW_DAYS - 1) <= MAXORDINAL
           /\ end_date < MAXORDINAL)).
Proof.
  pattern current, (windows_from end_date current).
  apply windows_from_ind; clear current; cbn [fst snd].
  - intros current Hgt _ _. split; [ left; assumption | reflexivity ].
  - intros current e Hle Hup Hpos Hmax.
    assert (Hover : MAXORDINAL < current + (MAX_WINDOW_DAYS - 1)).
    { destruct (Z_lt_ge_dec MAXORDINAL (current + (MAX_WINDOW_DAYS - 1)))
        as [ | Hin ]; [ assumption | ].
      rewrite date_add_in_range in Hup
        by (unfold MAX_WINDOW_DAYS in *; lia).
      discriminate Hup. }
    split; [ discriminate | ].
    intros [Hgt | [Hfit _]]; [ lia | ].
    assert (0 <= (end_date - current) / MAX_WINDOW_DAYS)
      by (apply Z.div_pos; unfold MAX_WINDOW_DAYS; lia).
    unfold MAX_WINDOW_DAYS in *. lia.
  - intros current upper e Hle Hup Hnext Hpos Hmax.
    apply date_add_inr in Hup as [-> [_ Hup]].
    assert (Hover : MAXORDINAL
                    < Z.min (current + (MAX_WINDOW_DAYS - 1)) end_date + 1).
    { destruct (Z_lt_ge_dec MAXORDINAL
                  (Z.min (current + (MAX_WINDOW_DAYS - 1)) end_date + 1))
        as [ | Hin ]; [ assumption | ].
      rewrite date_add_in_range in Hnext
        by (unfold MAX_WINDOW_DAYS in *; lia).
      discriminate Hnext. }
    split; [ discriminate | ].
    intros [Hgt | [_ Hlt]]; lia.
  - intros current upper next Hle Hup Hnext IH Hpos Hmax.
    apply date_add_inr in Hup as [-> [_ Hup]].
    apply date_add_inr in Hnext as [-> [Hnext1 Hnext2]].
    rewrite IH by lia. clear IH.
    unfold MAX_WINDOW_DAYS in *.
    destruct (Z_lt_ge_dec (current + (180 - 1)) end_date) as [Hfull | Hlast].
    + rewrite Z.min_l by lia.
      replace (end_date - current)
        with (end_date - (current + (180 - 1) + 1) + 1 * 180) by lia.
      rewrite Z.div_add by lia.
      split.
      * intros [Hgt | [Hfit Hlt]]; [ lia | right; split; lia ].
      * intros [Hgt | [Hfit Hlt]]; [ lia | right; split; lia ].
    + rewrite Z.min_r in * by lia.
      rewrite (Z.div_small (end_date - current)) by lia.
      split.
      * intros _. right. split; lia.
      * intros _. left. lia.
Qed.

(** X4: for dates [start_date <= end_date], the generator runs to its end
    (instead of ending in OverflowError) exactly when the last window's
    start plus 179 days is a date and [end_date] is not [date.max]. *)
Theorem date_iteration_windows_stops_iff (start_date end_date : date) :
  valid_date start_date -> valid_date end_date ->
  start_date <= end_date ->
  (snd (date_iteration_windows start_date end_date) = StopIteration
   <-> start_date
       + MAX_WINDOW_DAYS * ((end_date - start_date) / MAX_WINDOW_DAYS)
       + (MAX_WINDOW_DAYS - 1) <= MAXORDINAL
       /\ end_date < MAXORDINAL).
Proof.
  intros [Hs _] [_ He] Hle. unfold date_iteration_windows, MINORDINAL in *.
  rewrite windows_from_stops_iff by lia.
  split; [ intros [Hgt | Hfit]; [ lia | exact Hfit ] | intros Hfit; right; exact Hfit ].
Qed.

Lemma date_iteration_windows_stops_iff_witness :
  snd (date_iteration_windows (MAXORDINAL - 179) (MAXORDINAL - 1))
  = StopIteration
  <-> MAXORDINAL - 179
      + MAX_WINDOW_DAYS
        * ((MAXORDINAL - 1 - (MAXORDINAL - 179)) / MAX_WINDOW_DAYS)
      + (MAX_WINDOW_DAYS - 1) <= MAXORDINAL
      /\ MAXORDINAL - 1 < MAXORDINAL.
Proof.
  apply date_iteration_windows_stops_iff;
    unfold valid_date, MINORDINAL, MAXORDINAL; lia.
Defined.

(** X5: the only exception the generator ever ends in is the OverflowError
    of date arithmetic. *)
Theorem date_iteration_windows_raises_overflow_only
        (start_date end_date : date) (e : exn) :
  snd (date_iteration_windows start_date end_date) = GenRaise e ->
  e = OverflowError "date value out of range".
Proof.
  unfold date_iteration_windows.
  pattern start_date, (windows_from end_date start_date).
  apply windows_from_ind; clear start_date; cbn [fst snd].
  - intros current _ Hend. discriminate Hend.
  - intros current e' _ Hup [= <-]. unfold date_add in Hup. cbv zeta in Hup.
    destruct ((0 <? current + (MAX_WINDOW_DAYS - 1))
              && (current + (MAX_WINDOW_DAYS - 1) <=? MAXORDINAL));
      [ discriminate Hup | ].
    injection Hup as <-. reflexivity.
  - intros current upper e' _ _ Hnext [= <-].
    unfold date_add in Hnext. cbv zeta in Hnext.
    destruct ((0 <? Z.min upper end_date + 1)
              && (Z.min upper end_date + 1 <=? MAXORDINAL));
      [ discriminate Hnext | ].
    injection Hnext as <-. reflexivity.
  - intros current upper next _ _ _ IH Hend. exact (IH Hend).
Qed.

Lemma date_iteration_windows_raises_overflow_only_witness :
  OverflowError "date value out of range"
  = OverflowError "date value out of range".
Proof.
  apply (date_iteration_windows_raises_overflow_only MAXORDINAL MAXORDINAL).
  unfold date_iteration_windows. rewrite windows_from_overflow;
    [ reflexivity | lia | unfold MAXORDINAL, MAX_WINDOW_DAYS; lia ].
Defined.

(* ===================================================================== *)
(** ** More on the poller *)
(* ===================================================================== *)

Lemma call_failure_or_delivered (r : exn + response) :
  (exists e, call_failure r = Some e /\ delivered r = None)
  \/ (exists data, delivered r = Some data /\ call_failure r = None).
Proof.
  unfold call_failure, delivered. destruct r as [e | resp].
  - left. exists e. split; reflexivity.
  - destruct ((400 <=? status_code resp) && (status_code resp <? 600)).
    + left. eexists. split; reflexivity.
    + destruct (body resp) as [data | ].
      * right. exists data. split; reflexivity.
      * left. eexists. split; reflexivity.
Qed.

Lemma status_of_reported (r : exn + response) (data status : json) :
  delivered r = Some data -> status_of data = Some status ->
  reported r = Some (data, status).
Proof.
  intros Hdel Hst. unfold reported. rewrite Hdel.
  unfold status_of in Hst.
  destruct data; try discriminate Hst. simpl in Hst.
  destruct (dict_get members "_embedded" (JObj [])); try discriminate Hst.
  simpl in Hst. injection Hst as <-. reflexivity.
Qed.

Lemma reported_status_of (r : exn + response) (data status : json) :
  reported r = Some (data, status) -> status_of data = Some status.
Proof.
  intros Hrep. apply reported_delivered in Hrep as (_ & embedded & He & Hs).
  unfold status_of. rewrite He, Hs. reflexivity.
Qed.

Section PollerRuns.

Context {duration : Type}.
Variable H : host duration.

Lemma get_report_once_failed (s : session) (report_id : json)
      (tr : trace duration) (e : exn) :
  call_failure (network H (calls tr)) = Some e ->
  get_report_once H s report_id tr
  = (inl e, tr ++ [EvGet [Lit BASE_URL; Lit "/"; FStr report_id] 300]).
Proof.
  unfold call_failure, get_report_once, session_get, http, bind,
    raise_for_status, response_json.
  destruct (network H (calls tr)) as [e' | resp].
  - intros [= <-]. reflexivity.
  - destruct ((400 <=? status_code resp) && (status_code resp <? 600)).
    + intros [= <-]. reflexivity.
    + destruct (body resp); [ discriminate | ]. intros [= <-]. reflexivity.
Qed.

(** A fetch that fails ends the loop with its exception. *)
Lemma poll_attempt_failed (s : session) (report_id : json)
      (poll_interval : duration) (max_polls attempt : Z) (later : list Z)
      (tr : trace duration) (e : exn) :
  call_failure (network H (calls tr)) = Some e ->
  poll_loop H s report_id poll_interval max_polls (attempt :: later) tr
  = (inl e, tr ++ [EvGet [Lit BASE_URL; Lit "/"; FStr report_id] 300]).
Proof.
  intros Hfail. cbn [poll_loop]. unfold bind at 1.
  rewrite (get_report_once_failed _ _ _ _ Hfail). reflexivity.
Qed.

(** A body without a readable status ends the loop in the exception of the
    failed [get]. *)
Lemma poll_attempt_unreadable (s : session) (report_id : json)
      (poll_interval : duration) (max_polls attempt : Z) (later : list Z)
      (tr : trace duration) (data : json) :
  delivered (network H (calls tr)) = Some data ->
  status_of data = None ->
  exists e,
    poll_loop H s report_id poll_interval max_polls (attempt :: later) tr
    = (inl e, tr ++ [EvGet [Lit BASE_URL; Lit "/"; FStr report_id] 300]).
Proof.
  intros Hdel Hst. cbn [poll_loop]. unfold bind at 1.
  rewrite (get_report_once_delivered _ _ _ _ _ Hdel).
  unfold status_of in Hst. unfold bind at 1, lift at 1.
  destruct (py_get data "_embedded" (JObj [])) as [e | embedded].
  - exists e. reflexivity.
  - unfold bind at 1, lift at 1.
    destruct (py_get embedded "status" JNull) as [e | status];
      [ | discriminate Hst ].
    exists e. reflexivity.
Qed.

(** While the fetches report pending statuses and [time.sleep] accepts the
    poll interval the loop goes on: after [k] of them it stands at the
    attempts that are left, [k] fetches and [k] sleeps later. *)
Lemma poll_loop_skip_pending (s : session) (report_id : json)
      (poll_interval : duration) (max_polls : Z) (k : nat) :
  k = 0%nat \/ sleep_failure H poll_interval = None ->
  forall (attempts : list Z) (tr : trace duration),
    (k <= List.length attempts)%nat ->
    (forall j, (j < k)%nat ->
               exists data status,
                 reported (network H (calls tr + j)) = Some (data, status)
                 /\ pending status) ->
    exists tr_k,
      poll_loop H s report_id poll_interval max_polls attempts tr
      = poll_loop H s report_id poll_interval max_polls (skipn k attempts)
                  tr_k
      /\ calls tr_k = (calls tr + k)%nat
      /\ fetches tr_k = (fetches tr + k)%nat
      /\ sleeps tr_k = (sleeps tr + k)%nat.
Proof.
  induction k as [ | k IH ]; intros Hsleep attempts tr Hlen Hall.
  - exists tr. rewrite !Nat.add_0_r. repeat split; reflexivity.
  - destruct Hsleep as [Hzero | Hsleep]; [ discriminate Hzero | ].
    destruct attempts as [ | attempt later ]; [ simpl in Hlen; lia | ].
    destruct (Hall 0%nat) as (data & status & Hrep & Hpend); [ lia | ].
    rewrite Nat.add_0_r in Hrep.
    rewrite (poll_attempt _ _ _ _ _ _ _ _ _ _ Hrep). cbv zeta.
    rewrite (pending_not_completed _ Hpend).
    apply pending_test in Hpend as Htest. rewrite Htest. simpl negb. cbv iota.
    rewrite Hsleep.
    match goal with
    | |- context [poll_loop _ _ _ _ _ later ?tr2] =>
        assert (Hc : calls tr2 = (calls tr + 1)%nat)
          by (rewrite !calls_app; unfold calls; simpl; lia);
        assert (Hf : fetches tr2 = (fetches tr + 1)%nat)
          by (rewrite !fetches_app; unfold fetches; simpl; lia);
        assert (Hs : sleeps tr2 = (sleeps tr + 1)%nat)
          by (rewrite !sleeps_app; unfold sleeps; simpl; lia);
        destruct (IH (or_intror Hsleep) later tr2)
          as (tr_k & Hrun & Hck & Hfk & Hsk)
    end.
    + simpl in Hlen. lia.
    + intros j Hj. rewrite Hc.
      replace (calls tr + 1 + j)%nat with (calls tr + S j)%nat by lia.
      apply Hall. lia.
    + exists tr_k. cbn [skipn]. split; [ exact Hrun | ]. lia.
Qed.

(** Every run of the poll loop, however it ends: [n] fetches, no more than
    there are attempts and no other HTTP call; at most [n] sleeps; and a
    body is returned only after a fetch showed it COMPLETED, [n - 1]
    sleeps into the run. *)
Lemma poll_loop_run (s : session) (report_id : json)
      (poll_interval : duration) (max_polls : Z) (attempts : list Z) :
  forall (tr tr' : trace duration) (r : exn + json),
    poll_loop H s report_id poll_interval max_polls attempts tr = (r, tr') ->
    exists n mid,
      tr' = tr ++ mid
      /\ (n <= List.length attempts)%nat
      /\ fetches mid = n /\ calls mid = n
      /\ filter is_post mid = []
      /\ match r with
         | inr data =>
             (1 <= n)%nat /\ S (sleeps mid) = n
             /\ status_of data = Some (JStr "COMPLETED")
         | inl _ => (sleeps mid <= n)%nat
         end.
Proof.
  induction attempts as [ | attempt later IH ]; intros tr tr' r Hrun.
  - injection Hrun as <- <-. exists 0%nat, [].
    rewrite app_nil_r. repeat split; reflexivity || lia.
  - destruct (call_failure_or_delivered (network H (calls tr)))
      as [(e & Hfail & _) | (data & Hdel & _)].
    + rewrite (poll_attempt_failed _ _ _ _ _ _ _ _ Hfail) in Hrun.
      injection Hrun as <- <-. exists 1%nat. eexists.
      split; [ reflexivity | ]. cbn. repeat split; lia.
    + destruct (status_of data) as [status | ] eqn:Hst.
      * pose proof (status_of_reported _ _ _ Hdel Hst) as Hrep.
        rewrite (poll_attempt _ _ _ _ _ _ _ _ _ _ Hrep) in Hrun.
        cbv zeta in Hrun.
        destruct (eq_str status "COMPLETED") eqn:Ec.
        -- injection Hrun as <- <-. apply eq_str_true in Ec. subst status.
           exists 1%nat. eexists. split; [ reflexivity | ].
           cbn. repeat split; try lia. exact Hst.
        -- destruct (negb (eq_str status "SUBMITTED"
                           || eq_str status "PROCESSING" || is_none status)).
           ++ injection Hrun as <- <-. exists 1%nat. eexists.
              split; [ reflexivity | ]. cbn. repeat split; lia.
           ++ destruct (sleep_failure H poll_interval).
              ** injection Hrun as <- <-. exists 1%nat. eexists.
                 split; [ reflexivity | ]. cbn. repeat split; lia.
              ** apply IH in Hrun
                   as (n & mid & -> & Hn & Hf & Hc & Hp & Hr).
                 exists (S n). eexists.
                 split; [ rewrite <- !app_assoc; reflexivity | ].
                 split; [ simpl; lia | ].
                 unfold fetches, calls, sleeps in *. cbn.
                 rewrite Hf, Hc, Hp.
                 split; [ reflexivity | ]. split; [ reflexivity | ].
                 split; [ reflexivity | ].
                 destruct r as [e | body]; [ lia | ].
                 destruct Hr as (H1 & H2 & H3).
                 repeat split; try lia. exact H3.
      * destruct (poll_attempt_unreadable s report_id poll_interval max_polls
                    attempt later tr data Hdel Hst) as (e & He).
        rewrite He in Hrun. injection Hrun as <- <-.
        exists 1%nat. eexists. split; [ reflexivity | ].
        cbn. repeat split; lia.
Qed.

(** A body the poll loop returns is the one its last fetch delivered, and
    the only one of the run that a fetch reported COMPLETED. *)
Lemma poll_loop_returns (s : session) (report_id : json)
      (poll_interval : duration) (max_polls : Z) (attempts : list Z) :
  forall (tr tr' : trace duration) (data : json),
    poll_loop H s report_id poll_interval max_polls attempts tr
    = (inr data, tr') ->
    exists mid,
      tr' = tr ++ mid /\ fetched_reports H (calls tr) mid = [data].
Proof.
  induction attempts as [ | attempt later IH ]; intros tr tr' data Hrun.
  - discriminate Hrun.
  - destruct (call_failure_or_delivered (network H (calls tr)))
      as [(e & Hfail & _) | (body & Hdel & _)].
    + rewrite (poll_attempt_failed _ _ _ _ _ _ _ _ Hfail) in Hrun.
      discriminate Hrun.
    + destruct (status_of body) as [status | ] eqn:Hst.
      * pose proof (status_of_reported _ _ _ Hdel Hst) as Hrep.
        rewrite (poll_attempt _ _ _ _ _ _ _ _ _ _ Hrep) in Hrun.
        cbv zeta in Hrun.
        destruct (eq_str status "COMPLETED") eqn:Ec.
        -- injection Hrun as <- <-. eexists. split; [ reflexivity | ].
           cbn [fetched_reports]. rewrite Hrep, Ec. reflexivity.
        -- destruct (negb (eq_str status "SUBMITTED"
                           || eq_str status "PROCESSING" || is_none status));
             [ discriminate Hrun | ].
           destruct (sleep_failure H poll_interval); [ discriminate Hrun | ].
           apply IH in Hrun as (mid & -> & Hmid).
           eexists. split; [ rewrite <- !app_assoc; reflexivity | ].
           cbn [app fetched_reports]. rewrite Hrep, Ec.
           rewrite !calls_app in Hmid. unfold calls in Hmid at 2 3.
           simpl in Hmid. rewrite Nat.add_0_r, Nat.add_1_r in Hmid.
           exact Hmid.
      * destruct (poll_attempt_unreadable s report_id poll_interval max_polls
                    attempt later tr body Hdel Hst) as (e & He).
        rewrite He in Hrun. discriminate Hrun.
Qed.

End PollerRuns.

Section PollerMore.

Context {duration : Type}.
Variable H : host duration.

(** X6: whatever the network answers and however the call ends,
    [wait_for_report] makes at most [max_polls] status fetches (none when
    [max_polls <= 0]), makes no other HTTP call, and never sleeps more
    often than it has fetched. *)
Theorem wait_for_report_budget (s : session) (report_id : json)
        (poll_interval : duration) (max_polls : Z) (tr : trace duration) :
  exists mid,
    snd (wait_for_report H s report_id poll_interval max_polls tr) = tr ++ mid
    /\ (fetches mid <= Z.to_nat max_polls)%nat
    /\ calls mid = fetches mid
    /\ (sleeps mid <= fetches mid)%nat.
Proof.
  destruct (wait_for_report H s report_id poll_interval max_polls tr)
    as [r tr'] eqn:Hrun.
  unfold wait_for_report in Hrun.
  apply poll_loop_run in Hrun as (n & mid & -> & Hn & Hf & Hc & _ & Hr).
  rewrite py_range_length in Hn.
  exists mid. split; [ reflexivity | ].
  split; [ lia | ]. split; [ lia | ].
  destruct r as [e | data]; lia.
Qed.

(** X7: when [wait_for_report] returns a body, that body shows the status
    COMPLETED; at least one and at most [max_polls] fetches were made, and
    a sleep after each of them but the last. *)
Theorem wait_for_report_returns_completed (s : session) (report_id : json)
        (poll_interval : duration) (max_polls : Z) (tr tr' : trace duration)
        (data : json) :
  wait_for_report H s report_id poll_interval max_polls tr = (inr data, tr') ->
  status_of data = Some (JStr "COMPLETED")
  /\ exists mid,
      tr' = tr ++ mid
      /\ (1 <= fetches mid <= Z.to_nat max_polls)%nat
      /\ S (sleeps mid) = fetches mid.
Proof.
  intros Hrun. unfold wait_for_report in Hrun.
  apply poll_loop_run in Hrun
    as (n & mid & -> & Hn & Hf & Hc & _ & H1 & H2 & H3).
  rewrite py_range_length in Hn.
  split; [ exact H3 | ]. exists mid. split; [ reflexivity | ]. lia.
Qed.

(** X8: the first fetch whose status is not a pending one decides the
    call.  After [k < max_polls] fetches that report SUBMITTED, PROCESSING
    or no status -- each followed by a sleep, so for [k > 0] the poll
    interval is one [time.sleep] accepts -- a fetch reporting COMPLETED
    makes [wait_for_report] return its body, and a fetch reporting
    anything else makes it end in the RuntimeError carrying that status and
    body; either way after [k + 1] fetches and [k] sleeps. *)
Theorem wait_for_report_first_decisive (s : session) (report_id : json)
        (poll_interval : duration) (max_polls : Z) (tr : trace duration)
        (k : nat) (data status : json) :
  (k < Z.to_nat max_polls)%nat ->
  k = 0%nat \/ sleep_failure H poll_interval = None ->
  (forall j, (j < k)%nat ->
             exists data' status',
               reported (network H (calls tr + j)) = Some (data', status')
               /\ pending status') ->
  reported (network H (calls tr + k)) = Some (data, status) ->
  ~ pending status ->
  exists tr',
    wait_for_report H s report_id poll_interval max_polls tr
    = (if eq_str status "COMPLETED" then inr data
       else inl (RuntimeError
                   [Lit "Report "; FStr report_id;
                    Lit " ended in unexpected status "; FStr status;
                    Lit ": "; FDumps data]),
       tr')
    /\ fetches tr' = (fetches tr + k + 1)%nat
    /\ sleeps tr' = (sleeps tr + k)%nat.
Proof.
  intros Hk Hsleep Hall Hrep Hnot. unfold wait_for_report.
  destruct (poll_loop_skip_pending H s report_id poll_interval max_polls k
              Hsleep (py_range 1 (max_polls + 1)) tr)
    as (tr_k & Hrun & Hc & Hf & Hs).
  - rewrite py_range_length. lia.
  - exact Hall.
  - rewrite Hrun.
    destruct (skipn k (py_range 1 (max_polls + 1)))
      as [ | attempt later ] eqn:Hskip.
    + apply (f_equal (@List.length Z)) in Hskip.
      rewrite length_skipn, py_range_length in Hskip. simpl in Hskip. lia.
    + rewrite <- Hc in Hrep.
      rewrite (poll_attempt _ _ _ _ _ _ _ _ _ _ Hrep). cbv zeta.
      destruct (eq_str status "COMPLETED").
      * eexists. split; [ reflexivity | ].
        rewrite fetches_app, sleeps_app, Hf, Hs.
        unfold fetches, sleeps. simpl. lia.
      * destruct (eq_str status "SUBMITTED" || eq_str status "PROCESSING"
                  || is_none status) eqn:Et.
        -- apply pending_test in Et. contradiction.
        -- simpl negb. cbv iota. eexists. split; [ reflexivity | ].
           rewrite fetches_app, sleeps_app, Hf, Hs.
           unfold fetches, sleeps. simpl. lia.
Qed.

(** X9: a status fetch that fails is not retried.  After [k < max_polls]
    fetches that report a pending status -- each followed by a sleep, so
    for [k > 0] the poll interval is one [time.sleep] accepts -- a fetch
    that fails, in the transport, by a 4xx or 5xx status, or by a body that
    is not JSON, makes [wait_for_report] end in that very exception, with
    no fetch and no sleep after it. *)
Theorem wait_for_report_fetch_failure (s : session) (report_id : json)
        (poll_interval : duration) (max_polls : Z) (tr : trace duration)
        (k : nat) (e : exn) :
  (k < Z.to_nat max_polls)%nat ->
  k = 0%nat \/ sleep_failure H poll_interval = None ->
  (forall j, (j < k)%nat ->
             exists data status,
               reported (network H (calls tr + j)) = Some (data, status)
               /\ pending status) ->
  call_failure (network H (calls tr + k)) = Some e ->
  exists tr',
    wait_for_report H s report_id poll_interval max_polls tr = (inl e, tr')
    /\ fetches tr' = (fetches tr + k + 1)%nat
    /\ sleeps tr' = (sleeps tr + k)%nat.
Proof.
  intros Hk Hsleep Hall Hfail. unfold wait_for_report.
  destruct (poll_loop_skip_pending H s report_id poll_interval max_polls k
              Hsleep (py_range 1 (max_polls + 1)) tr)
    as (tr_k & Hrun & Hc & Hf & Hs).
  - rewrite py_range_length. lia.
  - exact Hall.
  - rewrite Hrun.
    destruct (skipn k (py_range 1 (max_polls + 1)))
      as [ | attempt later ] eqn:Hskip.
    + apply (f_equal (@List.length Z)) in Hskip.
      rewrite length_skipn, py_range_length in Hskip. simpl in Hskip. lia.
    + rewrite <- Hc in Hfail.
      rewrite (poll_attempt_failed _ _ _ _ _ _ _ _ _ Hfail).
      eexists. split; [ reflexivity | ].
      rewrite fetches_app, sleeps_app, Hf, Hs.
      unfold fetches, sleeps. simpl. lia.
Qed.

End PollerMore.

Lemma wait_for_report_returns_completed_witness :
  status_of (status_body (JStr "COMPLETED")) = Some (JStr "COMPLETED")
  /\ exists mid : trace Z,
      [EvGet [Lit BASE_URL; Lit "/"; FStr (JStr "r1")] 300;
       EvPrint [Lit "  Poll "; FInt 1; Lit ": status=";
                FStr (JStr "COMPLETED")]]
      = [] ++ mid
      /\ (1 <= fetches mid <= Z.to_nat 40)%nat
      /\ S (sleeps mid) = fetches mid.
Proof.
  apply (wait_for_report_returns_completed
           (replay [ok_response (status_body (JStr "COMPLETED"))])
           Session (JStr "r1") 5 40 []).
  reflexivity.
Defined.

Lemma wait_for_report_first_decisive_witness :
  exists tr' : trace Z,
    wait_for_report
      (replay [ok_response (status_body (JStr "SUBMITTED"));
               ok_response (status_body (JStr "PROCESSING"));
               ok_response (status_body (JStr "COMPLETED"))])
      Session (JStr "r1") 5 40 []
    = (inr (status_body (JStr "COMPLETED")), tr')
    /\ fetches tr' = 3%nat
    /\ sleeps tr' = 2%nat.
Proof.
  apply (wait_for_report_first_decisive
           (replay [ok_response (status_body (JStr "SUBMITTED"));
                    ok_response (status_body (JStr "PROCESSING"));
                    ok_response (status_body (JStr "COMPLETED"))])
           Session (JStr "r1") 5 40 [] 2
           (status_body (JStr "COMPLETED")) (JStr "COMPLETED")).
  - vm_compute. lia.
  - right. reflexivity.
  - intros j Hj. destruct j as [ | [ | j ] ].
    + exists (status_body (JStr "SUBMITTED")), (JStr "SUBMITTED").
      split; [ reflexivity | left; reflexivity ].
    + exists (status_body (JStr "PROCESSING")), (JStr "PROCESSING").
      split; [ reflexivity | right; left; reflexivity ].
    + lia.
  - reflexivity.
  - intros [E | [E | E]]; discriminate E.
Defined.

Lemma wait_for_report_fetch_failure_witness :
  exists tr' : trace Z,
    wait_for_report
      (replay [ok_response (status_body (JStr "PROCESSING"));
               inr {| status_code := 503; body := None |}])
      Session (JStr "r1") 5 40 []
    = (inl (HTTPError 503), tr')
    /\ fetches tr' = 2%nat
    /\ sleeps tr' = 1%nat.
Proof.
  apply (wait_for_report_fetch_failure
           (replay [ok_response (status_body (JStr "PROCESSING"));
                    inr {| status_code := 503; body := None |}])
           Session (JStr "r1") 5 40 [] 1 (HTTPError 503)).
  - vm_compute. lia.
  - right. reflexivity.
  - intros j Hj. destruct j as [ | j ]; [ | lia ].
    exists (status_body (JStr "PROCESSING")), (JStr "PROCESSING").
    split; [ reflexivity | right; left; reflexivity ].
  - reflexivity.
Defined.

(* ===================================================================== *)
(** ** More on the requester *)
(* ===================================================================== *)

Section RequesterMore.

Context {duration : Type}.
Variable H : host duration.

(** A submission that fails before its body is read. *)
Lemma request_report_failed (s : session) (payload : dict)
        (tr : trace duration) (e : exn) :
  call_failure (network H (calls tr)) = Some e ->
  request_report H s payload tr
  = (inl e, tr ++ [EvPost BASE_URL (JObj payload) 60]).
Proof.
  unfold call_failure, request_report, session_post, http,
    raise_for_status, response_json.
  unfold bind at 1.
  destruct (network H (calls tr)) as [e' | resp].
  - intros [= <-]. reflexivity.
  - unfold bind at 1.
    destruct ((400 <=? status_code resp) && (status_code resp <? 600)).
    + intros [= <-]. reflexivity.
    + unfold ret at 1. unfold bind at 1.
      destruct (body resp); [ discriminate | ]. intros [= <-]. reflexivity.
Qed.

(** X10: a submission that fails -- in the transport, by a 4xx or 5xx
    status, or by a body that is not JSON -- makes [request_report] end in
    that very exception, after the one POST. *)
Theorem request_report_call_failure (s : session) (payload : dict)
        (tr : trace duration) (e : exn) :
  call_failure (network H (calls tr)) = Some e ->
  request_report H s payload tr
  = (inl e, tr ++ [EvPost BASE_URL (JObj payload) 60]).
Proof. exact (request_report_failed s payload tr e). Qed.

(** The trace of a submission, whatever its outcome. *)
Lemma request_report_trace (s : session) (payload : dict)
        (tr : trace duration) :
  snd (request_report H s payload tr)
  = tr ++ [EvPost BASE_URL (JObj payload) 60].
Proof.
  destruct (call_failure_or_delivered (network H (calls tr)))
    as [(e & Hfail & _) | (data & Hdel & _)].
  - rewrite (request_report_failed _ _ _ _ Hfail). reflexivity.
  - rewrite (request_report_delivered _ _ _ _ _ Hdel).
    unfold bind, lift, ret, raise.
    destruct (py_get data "_embedded" (JObj [])) as [e | embedded];
      [ reflexivity | ].
    destruct (py_get data "id" JNull) as [e | top]; [ reflexivity | ].
    destruct (truthy top).
    + destruct (negb (truthy top)); reflexivity.
    + destruct (py_get embedded "id" JNull) as [e | nested];
        [ reflexivity | ].
      destruct (negb (truthy nested)); reflexivity.
Qed.

(** X11: whatever the answer and however the call ends, [request_report]
    does one thing that can be seen: the POST of the payload to the base
    URL with a timeout of 60 seconds. *)
Theorem request_report_one_post (s : session) (payload : dict)
        (tr : trace duration) :
  snd (request_report H s payload tr)
  = tr ++ [EvPost BASE_URL (JObj payload) 60].
Proof. exact (request_report_trace s payload tr). Qed.

(** X12: an identifier that [request_report] returns is never a false
    value: not [None], not an empty string, not zero. *)
Theorem request_report_returns_truthy (s : session) (payload : dict)
        (tr tr' : trace duration) (report_id : json) :
  request_report H s payload tr = (inr report_id, tr') ->
  truthy report_id = true.
Proof.
  intros Hrun.
  destruct (call_failure_or_delivered (network H (calls tr)))
    as [(e & Hfail & _) | (data & Hdel & _)].
  - rewrite (request_report_failed _ _ _ _ Hfail) in Hrun.
    discriminate Hrun.
  - rewrite (request_report_delivered _ _ _ _ _ Hdel) in Hrun.
    unfold bind, lift, ret, raise in Hrun.
    destruct (py_get data "_embedded" (JObj [])) as [e | embedded];
      [ discriminate Hrun | ].
    destruct (py_get data "id" JNull) as [e | top]; [ discriminate Hrun | ].
    destruct (truthy top) eqn:Et.
    + rewrite Et in Hrun. simpl in Hrun. injection Hrun as <- _. exact Et.
    + destruct (py_get embedded "id" JNull) as [e | nested];
        [ discriminate Hrun | ].
      destruct (truthy nested) eqn:En; simpl in Hrun;
        [ | discriminate Hrun ].
      injection Hrun as <- _. exact En.
Qed.

(** X13: when the body of the answer is not a JSON object, the call ends in
    the AttributeError of the missing [get], named after the type of the
    body. *)
Theorem request_report_not_an_object (s : session) (payload : dict)
        (tr : trace duration) (data : json) :
  delivered (network H (calls tr)) = Some data ->
  (forall members, data <> JObj members) ->
  request_report H s payload tr
  = (inl (AttributeError
            ("'" ++ type_name data
                 ++ "' object has no attribute 'get'")%string),
     tr ++ [EvPost BASE_URL (JObj payload) 60]).
Proof.
  intros Hdel Hshape.
  rewrite (request_report_delivered _ _ _ _ _ Hdel).
  unfold bind, lift.
  destruct data; try reflexivity.
  contradiction (Hshape members). reflexivity.
Qed.

End RequesterMore.

Lemma request_report_call_failure_witness :
  request_report (replay [inr {| status_code := 401; body := None |}])
                 Session [] ([] : trace Z)
  = (inl (HTTPError 401), [EvPost BASE_URL (JObj []) 60]).
Proof.
  apply (request_report_call_failure
           (replay [inr {| status_code := 401; body := None |}])
           Session [] [] (HTTPError 401)).
  reflexivity.
Defined.

Lemma request_report_returns_truthy_witness :
  truthy (JStr "r1") = true.
Proof.
  apply (request_report_returns_truthy
           (replay [ok_response (JObj [("id", JStr "r1")])])
           Session [] ([] : trace Z) [EvPost BASE_URL (JObj []) 60]).
  reflexivity.
Defined.

Lemma request_report_not_an_object_witness :
  request_report (replay [ok_response (JStr "oops")]) Session []
                 ([] : trace Z)
  = (inl (AttributeError "'str' object has no attribute 'get'"),
     [EvPost BASE_URL (JObj []) 60]).
Proof.
  apply (request_report_not_an_object
           (replay [ok_response (JStr "oops")]) Session [] []
           (JStr "oops")).
  - reflexivity.
  - discriminate.
Defined.

(* ===================================================================== *)
(** ** More on the orchestrator *)
(* ===================================================================== *)

Section OrchestratorMore.

Context {duration : Type}.
Variable H : host duration.

Lemma bind_cases {A B} (m : M duration A) (f : A -> M duration B)
      (tr tr' : trace duration) (r : exn + B) :
  bind m f tr = (r, tr') ->
  (exists e, m tr = (inl e, tr') /\ r = inl e)
  \/ (exists a tr1, m tr = (inr a, tr1) /\ f a tr1 = (r, tr')).
Proof.
  unfold bind. destruct (m tr) as [[e | a] tr1].
  - intros [= <- <-]. left. exists e. split; reflexivity.
  - intros Hf. right. exists a, tr1. split; [ reflexivity | exact Hf ].
Qed.

Lemma quiet_export_windows (s : session) (args : arguments duration)
      (windows : list window) :
  forall (id : Z) (all_windows : list json),
    quiet duration (export_windows H s args id windows all_windows).
Proof.
  induction windows as [ | [w_start w_end] later IH ];
    intros id all_windows; cbn [export_windows].
  - apply quiet_ret.
  - apply quiet_bind; [ apply quiet_emit; reflexivity | intros _ ].
    apply quiet_bind; [ apply quiet_fetch_audit_window | intros window_data ].
    apply IH.
Qed.

(** X15: a date that does not parse stops [main] with the exception of
    [fromisoformat], before anything is printed or sent; the start date is
    read first. *)
Theorem main_date_error (args : arguments duration) (tr : trace duration)
        (e : exn) :
  (fromisoformat H (arg_start_date args) = inl e ->
   main H args tr = (inl e, tr))
  /\ (forall start_date,
         fromisoformat H (arg_start_date args) = inr start_date ->
         resolved_end_date H args = inl e ->
         main H args tr = (inl e, tr)).
Proof.
  split.
  - intros Hs. unfold main, to_date, bind at 1, lift at 1.
    rewrite Hs. reflexivity.
  - intros start_date Hs He. unfold main, to_date.
    unfold bind at 1, lift at 1. rewrite Hs.
    unfold resolved_end_date in He. unfold bind at 1.
    destruct (arg_end_date args) as [value | ]; [ | discriminate He ].
    destruct (negb (value =? EmptyString)%string); [ | discriminate He ].
    unfold lift. rewrite He. reflexivity.
Qed.

End OrchestratorMore.


Lemma main_date_error_witness :
  main (replay []) (sample_arguments "01/02/2024" None 40) ([] : trace Z)
  = (inl (ValueError "Invalid isoformat string"), [])
  /\ main (replay []) (sample_arguments "2024-01-01" (Some "2024-02-30") 40)
          ([] : trace Z)
     = (inl (ValueError "date out of range"), []).
Proof.
  split.
  - apply (main_date_error (replay []) (sample_arguments "01/02/2024" None 40)
                           [] (ValueError "Invalid isoformat string")).
    reflexivity.
  - apply (main_date_error
             (replay []) (sample_arguments "2024-01-01" (Some "2024-02-30") 40)
             [] (ValueError "date out of range")) with (start_date := 738886).
    + reflexivity.
    + reflexivity.
Defined.

(* ===================================================================== *)
(** ** Counting what a run does *)
(* ===================================================================== *)

Section Counting.

Context {duration : Type}.
Variable H : host duration.
Variable count : event duration -> bool.

Lemma within_ret {A} (a : A) : within count 0 (ret a).
Proof.
  intros tr r tr' [= <- <-]. exists [].
  rewrite app_nil_r. split; [ reflexivity | simpl; lia ].
Qed.

Lemma within_raise {A} (e : exn) : within count 0 (raise (A:=A) e).
Proof.
  intros tr r tr' [= <- <-]. exists [].
  rewrite app_nil_r. split; [ reflexivity | simpl; lia ].
Qed.

Lemma within_lift {A} (x : exn + A) : within count 0 (lift x).
Proof.
  intros tr r tr' [= <- <-]. exists [].
  rewrite app_nil_r. split; [ reflexivity | simpl; lia ].
Qed.

Lemma within_emit (ev : event duration) :
  count ev = false -> within count 0 (emit ev).
Proof.
  intros Hev tr r tr' [= <- <-]. exists [ev].
  split; [ reflexivity | simpl; rewrite Hev; simpl; lia ].
Qed.

Lemma within_sleep (seconds : duration) :
  count (EvSleep seconds) = false -> within count 0 (sleep H seconds).
Proof.
  intros Hev. unfold sleep.
  destruct (sleep_failure H seconds);
    [ apply within_raise | apply within_emit; exact Hev ].
Qed.

Lemma within_mono {A} (n n' : nat) (m : M duration A) :
  (n <= n')%nat -> within count n m -> within count n' m.
Proof.
  intros Hle Hm tr r tr' Hrun.
  destruct (Hm _ _ _ Hrun) as (mid & -> & Hmid).
  exists mid. split; [ reflexivity | lia ].
Qed.

Lemma within_bind {A B} (n k : nat) (m : M duration A)
      (f : A -> M duration B) :
  within count n m -> (forall a, within count k (f a)) ->
  within count (n + k) (bind m f).
Proof.
  intros Hm Hf tr r tr' Hrun. unfold bind in Hrun.
  destruct (m tr) as [[e | a] tr1] eqn:Em.
  - injection Hrun as <- <-.
    destruct (Hm _ _ _ Em) as (mid & -> & Hmid).
    exists mid. split; [ reflexivity | lia ].
  - destruct (Hm _ _ _ Em) as (mid1 & -> & Hmid1).
    destruct (Hf a _ _ _ Hrun) as (mid2 & -> & Hmid2).
    exists (mid1 ++ mid2). rewrite app_assoc. split; [ reflexivity | ].
    rewrite filter_app, length_app. lia.
Qed.

Lemma within_dump_to_file (path : string) (doc : json) (indent : Z) :
  count (EvOpen path) = false -> count (EvDump path doc indent) = false ->
  within count 0 (dump_to_file H path doc indent).
Proof.
  intros Hopen Hdump. unfold dump_to_file.
  destruct (open_for_writing H path); [ apply within_raise | ].
  apply (within_bind 0 0); [ apply within_emit; exact Hopen | intros _ ].
  destruct (dump_failure H path);
    [ apply within_raise | apply within_emit; exact Hdump ].
Qed.

End Counting.

Section CallBudget.

Context {duration : Type}.
Variable H : host duration.

Lemma within_request_report (s : session) (payload : dict) :
  within (@is_call duration) 1 (request_report H s payload).
Proof.
  intros tr r tr' Hrun. eexists. split.
  - rewrite <- (request_report_trace H s payload tr). rewrite Hrun. reflexivity.
  - simpl. lia.
Qed.

Lemma within_wait_for_report (s : session) (report_id : json)
      (poll_interval : duration) (max_polls : Z) :
  within (@is_call duration) (Z.to_nat max_polls)
         (wait_for_report H s report_id poll_interval max_polls).
Proof.
  intros tr r tr' Hrun. unfold wait_for_report in Hrun.
  apply poll_loop_run in Hrun as (n & mid & -> & Hn & _ & Hc & _).
  rewrite py_range_length in Hn.
  exists mid. split; [ reflexivity | ]. unfold calls in Hc. lia.
Qed.

Lemma within_fetch_audit_window (s : session) (window_start window_end : date)
      (sleep_between_windows poll_interval : duration) (max_polls : Z) :
  within (@is_call duration) (S (Z.to_nat max_polls))
         (fetch_audit_window H s window_start window_end
                             sleep_between_windows poll_interval max_polls).
Proof.
  unfold fetch_audit_window, print. cbv zeta.
  apply (within_mono _ (0 + (0 + (1 + (0 + (Z.to_nat max_polls
                                               + (0 + (0 + 0))))))));
    [ lia | ].
  apply within_bind; [ apply within_lift | intros start_str ].
  apply within_bind; [ apply within_emit; reflexivity | intros _ ].
  apply within_bind; [ apply within_request_report | intros report_id ].
  apply within_bind; [ apply within_emit; reflexivity | intros _ ].
  apply within_bind; [ apply within_wait_for_report | intros report_data ].
  apply within_bind; [ apply within_emit; reflexivity | intros _ ].
  apply within_bind; [ apply within_sleep; reflexivity | intros _ ].
  apply within_ret.
Qed.

Lemma within_export_windows (s : session) (args : arguments duration)
      (windows : list window) :
  forall (id : Z) (all_windows : list json),
    within (@is_call duration)
           (List.length windows * S (Z.to_nat (arg_max_polls args)))
           (export_windows H s args id windows all_windows).
Proof.
  induction windows as [ | [w_start w_end] later IH ];
    intros id all_windows; cbn [export_windows].
  - apply within_ret.
  - apply (within_mono _ (0 + (S (Z.to_nat (arg_max_polls args))
                              + List.length later
                                * S (Z.to_nat (arg_max_polls args)))));
      [ simpl; lia | ].
    apply within_bind; [ apply within_emit; reflexivity | intros _ ].
    apply within_bind;
      [ apply within_fetch_audit_window | intros window_data ].
    apply IH.
Qed.

(** X16: a run of [main] on the dates (start, end), however it ends, makes
    at most one submission and [max_polls] status fetches per window of the
    range: no more than [windows * (1 + max_polls)] HTTP calls. *)
Theorem main_call_budget (args : arguments duration)
        (tr : trace duration) (start_date end_date : date) :
  fromisoformat H (arg_start_date args) = inr start_date ->
  resolved_end_date H args = inr end_date ->
  exists mid,
    snd (main H args tr) = tr ++ mid
    /\ (calls mid
        <= List.length (fst (date_iteration_windows start_date end_date))
           * (1 + Z.to_nat (arg_max_polls args)))%nat.
Proof.
  intros Hs He.
  assert (Hmain :
            main H args tr
            = (if start_date >? end_date then
                 raise (ValueError "start-date must be on or before end-date")
               else
                 print [Lit "Exporting AUDIT data from "; FDate start_date;
                        Lit " to "; FDate end_date; Lit "..."] ;;
                 s <- new_session ;;
                 all_windows <- export_windows H s args 1
                                  (fst (date_iteration_windows
                                          start_date end_date)) [] ;;
                 match snd (date_iteration_windows start_date end_date) with
                 | GenRaise e => raise e
                 | StopIteration =>
                     dump_to_file H (out_file_name start_date end_date)
                                  (JArr all_windows) 2 ;;
                     print [Lit newline; Lit "Done. Saved ";
                            FInt (Z.of_nat (List.length all_windows));
                            Lit " window(s) to ";
                            Lit (out_file_name start_date end_date)]
                 end) tr).
  { unfold main, to_date. unfold bind at 1, lift at 1. rewrite Hs.
    unfold bind at 1. unfold resolved_end_date in He.
    destruct (arg_end_date args) as [value | ].
    - destruct (negb (value =? EmptyString)%string).
      + unfold lift. rewrite He. reflexivity.
      + unfold ret. injection He as <-. reflexivity.
    - unfold ret. injection He as <-. reflexivity. }
  rewrite Hmain. clear Hmain.
  match goal with
  | |- exists mid, snd (?m tr) = _ /\ _ =>
      assert (Hw : within (@is_call duration)
                     (List.length
                        (fst (date_iteration_windows start_date end_date))
                      * S (Z.to_nat (arg_max_polls args))) m)
  end.
  { destruct (start_date >? end_date).
    - apply (within_mono _ 0); [ lia | apply within_raise ].
    - apply (within_mono _
               (0 + (0 + (List.length
                            (fst (date_iteration_windows
                                    start_date end_date))
                          * S (Z.to_nat (arg_max_polls args)) + 0))));
        [ lia | ].
      unfold print, new_session.
      apply within_bind; [ apply within_emit; reflexivity | intros _ ].
      apply within_bind.
      { apply (within_bind _ 0 0); [ apply within_emit; reflexivity | ].
        intros _. apply within_ret. }
      intros s.
      apply within_bind; [ apply within_export_windows | intros all_windows ].
      destruct (snd (date_iteration_windows start_date end_date)).
      + apply (within_bind _ 0 0);
          [ apply within_dump_to_file; reflexivity | intros _ ].
        apply within_emit. reflexivity.
      + apply within_raise. }
  match goal with
  | |- exists mid, snd (?m tr) = _ /\ _ =>
      destruct (m tr) as [r tr'] eqn:Hrun
  end.
  destruct (Hw _ _ _ Hrun) as (mid & -> & Hmid).
  exists mid. split; [ reflexivity | ]. unfold calls. lia.
Qed.

End CallBudget.

Lemma main_call_budget_witness :
  exists mid : trace Z,
    snd one_day_run = [] ++ mid
    /\ (calls mid
        <= List.length (fst (date_iteration_windows 738886%Z 738886%Z))
           * (1 + Z.to_nat 40%Z))%nat.
Proof.
  apply (main_call_budget
           (replay [ok_response (JObj [("id", JStr "r1")]);
                    ok_response (status_body (JStr "COMPLETED"))])
           (sample_arguments "2024-01-01" (Some "2024-01-01") 40)
           [] 738886 738886).
  - reflexivity.
  - reflexivity.
Defined.

(* ===================================================================== *)
(** ** The submissions of a run *)
(* ===================================================================== *)

Section Submissions.

Context {duration : Type}.
Variable H : host duration.

Lemma payload_start_date (window_start window_end : date) :
  dict_getitem (build_audit_payload H window_start window_end) "start_date"
  = inr (JStr (strftime_Ymd H window_start)).
Proof.
  unfold build_audit_payload.
  destruct (window_end >? window_start); reflexivity.
Qed.

(** A window that is fetched has been submitted once, with its payload. *)
Lemma fetch_audit_window_posts (s : session) (window_start window_end : date)
      (sleep_between_windows poll_interval : duration) (max_polls : Z)
      (tr tr' : trace duration) (out : json) :
  fetch_audit_window H s window_start window_end sleep_between_windows
                     poll_interval max_polls tr = (inr out, tr') ->
  exists mid,
    tr' = tr ++ mid
    /\ filter is_post mid = [window_request H (window_start, window_end)].
Proof.
  intros Hrun. unfold fetch_audit_window in Hrun. cbv zeta in Hrun.
  apply bind_inr in Hrun as (start_str & tr0 & Hs & Hrun).
  unfold lift in Hs. injection Hs as _ <-.
  apply bind_inr in Hrun as (? & tr1 & Hp1 & Hrun).
  unfold print, emit in Hp1. injection Hp1 as _ <-.
  apply bind_inr in Hrun as (report_id & tr2 & Hreq & Hrun).
  apply (f_equal snd) in Hreq. rewrite request_report_trace in Hreq.
  simpl in Hreq. subst tr2.
  apply bind_inr in Hrun as (? & tr3 & Hp2 & Hrun).
  unfold print, emit in Hp2. injection Hp2 as _ <-.
  apply bind_inr in Hrun as (report_data & tr4 & Hwait & Hrun).
  unfold wait_for_report in Hwait.
  apply poll_loop_run in Hwait as (n & mid & -> & _ & _ & _ & Hposts & _).
  apply bind_inr in Hrun as (? & tr5 & Hp3 & Hrun).
  unfold print, emit in Hp3. injection Hp3 as _ <-.
  apply bind_inr in Hrun as (? & tr6 & Hsl & Hrun).
  apply sleep_inr in Hsl as [_ ->].
  injection Hrun as _ <-.
  eexists. split.
  - rewrite <- !app_assoc. reflexivity.
  - rewrite !filter_app, Hposts. reflexivity.
Qed.

Lemma export_windows_posts (s : session) (args : arguments duration)
      (windows : list window) :
  forall (id : Z) (all_windows out : list json) (tr tr' : trace duration),
    export_windows H s args id windows all_windows tr = (inr out, tr') ->
    exists mid,
      tr' = tr ++ mid
      /\ filter is_post mid = map (window_request H) windows.
Proof.
  induction windows as [ | [w_start w_end] later IH ];
    intros id all_windows out tr tr' Hrun.
  - injection Hrun as _ <-. exists []. rewrite app_nil_r.
    split; reflexivity.
  - cbn [export_windows] in Hrun.
    apply bind_inr in Hrun as (? & tr1 & Hprint & Hrun).
    unfold print, emit in Hprint. injection Hprint as _ <-.
    apply bind_inr in Hrun as (window_data & tr2 & Hfetch & Hrun).
    apply fetch_audit_window_posts in Hfetch as (mid1 & -> & Hp1).
    apply IH in Hrun as (mid2 & -> & Hp2).
    eexists. split.
    + rewrite <- !app_assoc. reflexivity.
    + rewrite !filter_app, Hp1, Hp2. reflexivity.
Qed.

(** X17: in a run of [main] that succeeds, the submissions are exactly one
    POST per window of the range, in the order of the windows, each to the
    base URL with the payload of its window and a timeout of 60 seconds. *)
Theorem main_submits_each_window_once (args : arguments duration)
        (tr tr' : trace duration) :
  main H args tr = (inr tt, tr') ->
  exists start_date end_date mid,
    fromisoformat H (arg_start_date args) = inr start_date
    /\ resolved_end_date H args = inr end_date
    /\ tr' = tr ++ mid
    /\ filter is_post mid
       = map (fun w => EvPost BASE_URL
                              (JObj (build_audit_payload H (fst w) (snd w)))
                              60)
             (fst (date_iteration_windows start_date end_date)).
Proof.
  intros Hrun. unfold main in Hrun.
  apply bind_inr in Hrun as (start_date & tr1 & Hs & Hrun).
  unfold to_date, lift in Hs. injection Hs as Hs <-.
  apply bind_inr in Hrun as (end_date & tr2 & He & Hrun).
  assert (He' : resolved_end_date H args = inr end_date /\ tr2 = tr).
  { unfold resolved_end_date.
    destruct (arg_end_date args) as [value | ].
    - destruct (negb (value =? EmptyString)%string).
      + unfold to_date, lift in He. injection He as He <-.
        split; [ exact He | reflexivity ].
      + injection He as <- <-. split; reflexivity.
    - injection He as <- <-. split; reflexivity. }
  destruct He' as [He' ->]. clear He.
  destruct (start_date >? end_date); [ discriminate Hrun | ].
  apply bind_inr in Hrun as (? & tr3 & Hp1 & Hrun).
  unfold print, emit in Hp1. injection Hp1 as _ <-.
  apply bind_inr in Hrun as (s & tr4 & Hnew & Hrun).
  unfold new_session, bind, emit, ret in Hnew. injection Hnew as _ <-.
  cbv zeta in Hrun.
  apply bind_inr in Hrun as (all_windows & tr5 & Hexp & Hrun).
  apply export_windows_posts in Hexp as (mid & -> & Hposts).
  destruct (snd (date_iteration_windows start_date end_date));
    [ | discriminate Hrun ].
  apply bind_inr in Hrun as (? & tr6 & Hdump & Hrun).
  apply dump_to_file_inr in Hdump as ->.
  unfold print, emit in Hrun. injection Hrun as <-.
  exists start_date, end_date. eexists.
  split; [ exact Hs | ]. split; [ exact He' | ]. split.
  - rewrite <- !app_assoc. reflexivity.
  - simpl. rewrite !filter_app, Hposts. simpl. rewrite app_nil_r.
    reflexivity.
Qed.

Lemma windows_from_first (end_date current : date) :
  0 < current <= end_date ->
  current + (MAX_WINDOW_DAYS - 1) <= MAXORDINAL ->
  exists later,
    fst (windows_from end_date current)
    = (current, Z.min (current + (MAX_WINDOW_DAYS - 1)) end_date) :: later.
Proof.
  intros [Hpos Hle] Hfit. rewrite windows_from_body.
  apply Z.leb_le in Hle as Hle'. rewrite Hle'.
  rewrite date_add_in_range by (unfold MAX_WINDOW_DAYS in *; lia).
  cbv zeta.
  destruct (date_add (Z.min (current + (MAX_WINDOW_DAYS - 1)) end_date) 1);
    eexists; reflexivity.
Qed.

(** X18: a failed submission is not retried and ends the run: when the
    submission for the first window fails, [main] ends in that very
    exception after this one HTTP call, without a status fetch. *)
Theorem main_aborts_on_failed_submission (args : arguments duration)
        (tr : trace duration) (start_date end_date : date) (e : exn) :
  fromisoformat H (arg_start_date args) = inr start_date ->
  resolved_end_date H args = inr end_date ->
  valid_date start_date ->
  start_date <= end_date ->
  start_date + (MAX_WINDOW_DAYS - 1) <= MAXORDINAL ->
  call_failure (network H (calls tr)) = Some e ->
  exists tr',
    main H args tr = (inl e, tr')
    /\ calls tr' = (calls tr + 1)%nat
    /\ fetches tr' = fetches tr.
Proof.
  intros Hs He [Hpos _] Hle Hfit Hfail. unfold MINORDINAL in Hpos.
  destruct (windows_from_first end_date start_date) as (later & Hfirst);
    [ lia | assumption | ].
  unfold main, to_date. unfold bind at 1, lift at 1. rewrite Hs.
  assert (Hend : forall tr0 : trace duration,
             match arg_end_date args with
             | Some value =>
                 if negb (value =? EmptyString)%string
                 then lift (fromisoformat H value)
                 else ret (today H)
             | None => ret (today H)
             end tr0 = (inr end_date, tr0)).
  { intros tr0. unfold resolved_end_date in He.
    destruct (arg_end_date args) as [value | ].
    - destruct (negb (value =? EmptyString)%string).
      + unfold lift. rewrite He. reflexivity.
      + unfold ret. injection He as <-. reflexivity.
    - unfold ret. injection He as <-. reflexivity. }
  unfold bind at 1. rewrite Hend.
  assert (Hcheck : (start_date >? end_date) = false)
    by (rewrite Z.gtb_ltb; apply Z.ltb_ge; lia).
  rewrite Hcheck. cbv zeta.
  unfold date_iteration_windows. rewrite Hfirst.
  unfold bind at 1, print at 1, emit at 1.
  unfold bind at 1, new_session, bind at 1, emit at 1, ret at 1.
  unfold bind at 1. cbn [export_windows].
  unfold bind at 1, print at 1, emit at 1.
  unfold bind at 1, fetch_audit_window. cbv zeta.
  unfold bind at 1, lift at 1. rewrite payload_start_date.
  unfold bind at 1, print at 1, emit at 1.
  unfold bind at 1.
  match goal with
  | |- context [request_report H Session ?p ?tr3] =>
      assert (Hcalls : calls tr3 = calls tr)
        by (rewrite !calls_app; unfold calls; simpl; lia);
      assert (Hfetches : fetches tr3 = fetches tr)
        by (rewrite !fetches_app; unfold fetches; simpl; lia);
      rewrite <- Hcalls in Hfail;
      rewrite (request_report_failed H Session p tr3 e Hfail)
  end.
  eexists. split; [ reflexivity | ].
  rewrite calls_app, fetches_app, Hcalls, Hfetches.
  unfold calls, fetches. simpl. lia.
Qed.

End Submissions.

Lemma main_submits_each_window_once_witness :
  exists start_date end_date (mid : trace Z),
    snd one_day_run = [] ++ mid
    /\ filter is_post mid
       = map (fun w =>
                EvPost BASE_URL
                       (JObj (build_audit_payload
                                (replay
                                   [ok_response (JObj [("id", JStr "r1")]);
                                    ok_response
                                      (status_body (JStr "COMPLETED"))])
                                (fst w) (snd w)))
                       60)
             (fst (date_iteration_windows start_date end_date)).
Proof.
  assert (Hrun : one_day_run = (inr tt, snd one_day_run))
    by (vm_compute; reflexivity).
  destruct (main_submits_each_window_once _ _ _ _ Hrun)
    as (start_date & end_date & mid & _ & _ & Htr & Hposts).
  exists start_date, end_date, mid. split; [ exact Htr | exact Hposts ].
Defined.

Lemma main_aborts_on_failed_submission_witness :
  exists tr' : trace Z,
    main (replay [inr {| status_code := 500; body := None |}])
         (sample_arguments "2024-01-01" None 40) []
    = (inl (HTTPError 500), tr')
    /\ calls tr' = 1%nat
    /\ fetches tr' = 0%nat.
Proof.
  apply (main_aborts_on_failed_submission
           (replay [inr {| status_code := 500; body := None |}])
           (sample_arguments "2024-01-01" None 40) [] 738886 738886
           (HTTPError 500)).
  - reflexivity.
  - reflexivity.
  - unfold valid_date, MINORDINAL, MAXORDINAL. lia.
  - lia.
  - unfold MAX_WINDOW_DAYS, MAXORDINAL. lia.
  - reflexivity.
Defined.

(* ===================================================================== *)
(** ** What a fetched window holds *)
(* ===================================================================== *)

Section Outcomes.

Context {duration : Type}.
Variable H : host duration.

(** X19: one status fetch is one GET of the report's URL with a timeout of
    300 seconds, whatever its outcome; it returns the body as delivered, and
    ends in the exception of the call when the call fails. *)
Theorem get_report_once_outcome (s : session) (report_id : json)
        (tr : trace duration) :
  snd (get_report_once H s report_id tr)
  = tr ++ [EvGet [Lit BASE_URL; Lit "/"; FStr report_id] 300]
  /\ (forall data,
         delivered (network H (calls tr)) = Some data ->
         fst (get_report_once H s report_id tr) = inr data)
  /\ (forall e,
         call_failure (network H (calls tr)) = Some e ->
         fst (get_report_once H s report_id tr) = inl e).
Proof.
  split; [ | split ].
  - destruct (call_failure_or_delivered (network H (calls tr)))
      as [(e & Hfail & _) | (data & Hdel & _)].
    + rewrite (get_report_once_failed _ _ _ _ _ Hfail). reflexivity.
    + rewrite (get_report_once_delivered _ _ _ _ _ Hdel). reflexivity.
  - intros data Hdel.
    rewrite (get_report_once_delivered _ _ _ _ _ Hdel). reflexivity.
  - intros e Hfail.
    rewrite (get_report_once_failed _ _ _ _ _ Hfail). reflexivity.
Qed.

(** A window that is fetched: its outcome and what it took. *)
Lemma fetch_audit_window_run (s : session)
      (window_start window_end : date)
      (sleep_between_windows poll_interval : duration) (max_polls : Z)
      (tr tr' : trace duration) (out : json) :
  window_start <= window_end ->
  fetch_audit_window H s window_start window_end sleep_between_windows
                     poll_interval max_polls tr = (inr out, tr') ->
  exists report mid,
    out = JObj [("window_start", JStr (strftime_Ymd H window_start));
                ("window_end", JStr (strftime_Ymd H window_end));
                ("report", report)]
    /\ status_of report = Some (JStr "COMPLETED")
    /\ tr' = tr ++ mid ++ [EvSleep sleep_between_windows]
    /\ (2 <= calls mid <= 1 + Z.to_nat max_polls)%nat.
Proof.
  intros Hle Hrun.
  destruct (payload_strings H window_start window_end Hle) as [Hstart Hend].
  cbv zeta in Hstart, Hend.
  unfold fetch_audit_window in Hrun. cbv zeta in Hrun.
  apply bind_inr in Hrun as (start_str & tr0 & Hs & Hrun).
  unfold lift in Hs. rewrite Hstart in Hs. injection Hs as <- <-.
  rewrite Hend in Hrun.
  apply bind_inr in Hrun as (? & tr1 & Hp1 & Hrun).
  unfold print, emit in Hp1. injection Hp1 as _ <-.
  apply bind_inr in Hrun as (report_id & tr2 & Hreq & Hrun).
  apply (f_equal snd) in Hreq. rewrite request_report_trace in Hreq.
  simpl in Hreq. subst tr2.
  apply bind_inr in Hrun as (? & tr3 & Hp2 & Hrun).
  unfold print, emit in Hp2. injection Hp2 as _ <-.
  apply bind_inr in Hrun as (report_data & tr4 & Hwait & Hrun).
  unfold wait_for_report in Hwait.
  apply poll_loop_run in Hwait
    as (n & mid & -> & Hn & _ & Hc & _ & H1 & _ & Hdone).
  rewrite py_range_length in Hn.
  apply bind_inr in Hrun as (? & tr5 & Hp3 & Hrun).
  unfold print, emit in Hp3. injection Hp3 as _ <-.
  apply bind_inr in Hrun as (? & tr6 & Hsl & Hrun).
  apply sleep_inr in Hsl as [_ ->].
  injection Hrun as <- <-.
  exists report_data.
  exists ([EvPrint [Lit "Requesting AUDIT report from ";
                    FStr (JStr (strftime_Ymd H window_start)); Lit " to ";
                    FStr (JStr (strftime_Ymd H window_end)); Lit "..."];
           EvPost BASE_URL
                  (JObj (build_audit_payload H window_start window_end)) 60;
           EvPrint [Lit "  Report id: "; FStr report_id]]
          ++ mid ++ [EvPrint [Lit "  Report completed and retrieved."]]).
  split; [ reflexivity | ]. split; [ exact Hdone | ]. split.
  - rewrite <- !app_assoc. reflexivity.
  - rewrite !calls_app. unfold calls in *. simpl. lia.
Qed.

(** X20: a window that [fetch_audit_window] brings back is the object
    {window_start, window_end, report} with the two dates of the window as
    [strftime] gives them and a report whose status is COMPLETED; it took
    the submission and between 1 and [max_polls] status fetches, and the
    pacing sleep is the last thing done. *)
Theorem fetch_audit_window_outcome (s : session)
        (window_start window_end : date)
        (sleep_between_windows poll_interval : duration) (max_polls : Z)
        (tr tr' : trace duration) (out : json) :
  window_start <= window_end ->
  fetch_audit_window H s window_start window_end sleep_between_windows
                     poll_interval max_polls tr = (inr out, tr') ->
  exists report mid,
    out = JObj [("window_start", JStr (strftime_Ymd H window_start));
                ("window_end", JStr (strftime_Ymd H window_end));
                ("report", report)]
    /\ status_of report = Some (JStr "COMPLETED")
    /\ tr' = tr ++ mid ++ [EvSleep sleep_between_windows]
    /\ (2 <= calls mid <= 1 + Z.to_nat max_polls)%nat.
Proof.
  exact (fetch_audit_window_run s window_start window_end
           sleep_between_windows poll_interval max_polls tr tr' out).
Qed.

Lemma export_windows_completed (s : session) (args : arguments duration)
      (windows : list window) :
  Forall (fun w => fst w <= snd w) windows ->
  forall (id : Z) (all_windows out : list json) (tr tr' : trace duration),
    export_windows H s args id windows all_windows tr = (inr out, tr') ->
    exists reports,
      List.length reports = List.length windows
      /\ Forall (fun report => status_of report = Some (JStr "COMPLETED"))
                reports
      /\ out = all_windows
               ++ map (window_outcome H) (combine windows reports).
Proof.
  induction 1 as [ | [w_start w_end] later Hw _ IH ];
    intros id all_windows out tr tr' Hrun.
  - injection Hrun as <- _. exists []. rewrite app_nil_r.
    split; [ reflexivity | ]. split; [ constructor | reflexivity ].
  - cbn [export_windows] in Hrun.
    apply bind_inr in Hrun as (? & tr1 & _ & Hrun).
    apply bind_inr in Hrun as (window_data & tr2 & Hfetch & Hrun).
    simpl in Hw.
    apply (fetch_audit_window_run _ _ _ _ _ _ _ _ _ Hw) in Hfetch
      as (report & mid & -> & Hdone & _).
    apply IH in Hrun as (reports & Hlen & Hall & ->).
    exists (report :: reports). simpl. rewrite Hlen.
    split; [ reflexivity | ].
    split; [ constructor; assumption | ].
    rewrite <- app_assoc. reflexivity.
Qed.

(** X21: every report in the file a successful run writes shows the status
    COMPLETED: the document holds, per window of the range, the outcome of
    that window with a report the poller returned. *)
Theorem main_reports_completed (args : arguments duration)
        (tr tr' : trace duration) :
  main H args tr = (inr tt, tr') ->
  exists start_date end_date reports before path closing,
    fromisoformat H (arg_start_date args) = inr start_date
    /\ resolved_end_date H args = inr end_date
    /\ tr' = before
             ++ [EvDump path
                        (JArr (map (window_outcome H)
                                   (combine
                                      (fst (date_iteration_windows
                                              start_date end_date))
                                      reports)))
                        2;
                 EvPrint closing]
    /\ List.length reports
       = List.length (fst (date_iteration_windows start_date end_date))
    /\ Forall (fun report => status_of report = Some (JStr "COMPLETED"))
              reports.
Proof.
  intros Hrun. unfold main in Hrun.
  apply bind_inr in Hrun as (start_date & tr1 & Hs & Hrun).
  unfold to_date, lift in Hs. injection Hs as Hs <-.
  apply bind_inr in Hrun as (end_date & tr2 & He & Hrun).
  assert (He' : resolved_end_date H args = inr end_date).
  { unfold resolved_end_date.
    destruct (arg_end_date args) as [value | ].
    - destruct (negb (value =? EmptyString)%string).
      + unfold to_date, lift in He. injection He as He _. exact He.
      + injection He as <- _. reflexivity.
    - injection He as <- _. reflexivity. }
  clear He.
  destruct (start_date >? end_date) eqn:Hcheck; [ discriminate Hrun | ].
  rewrite Z.gtb_ltb in Hcheck. apply Z.ltb_ge in Hcheck.
  apply bind_inr in Hrun as (? & tr3 & _ & Hrun).
  apply bind_inr in Hrun as (s & tr4 & _ & Hrun).
  cbv zeta in Hrun.
  apply bind_inr in Hrun as (all_windows & tr5 & Hexp & Hrun).
  destruct (snd (date_iteration_windows start_date end_date)) eqn:Hend;
    [ | discriminate Hrun ].
  assert (Hchain : chain start_date end_date
                         (fst (date_iteration_windows start_date end_date))).
  { apply windows_from_chain; [ lia | exact Hend ]. }
  assert (Hws : Forall (fun w => fst w <= snd w)
                       (fst (date_iteration_windows start_date end_date))).
  { apply Forall_forall. intros w Hin.
    pose proof (chain_bounds _ _ _ Hchain w Hin) as Hb.
    destruct w as [a b]. simpl in *. lia. }
  apply (export_windows_completed _ _ _ Hws) in Hexp
    as (reports & Hlen & Hall & Hout).
  simpl in Hout. subst all_windows.
  apply bind_inr in Hrun as (? & tr6 & Hdump & Hrun).
  apply dump_to_file_inr in Hdump as ->.
  unfold print, emit in Hrun. injection Hrun as <-.
  exists start_date, end_date, reports.
  exists (tr5 ++ [EvOpen (out_file_name start_date end_date)]).
  eexists. eexists.
  split; [ exact Hs | ]. split; [ exact He' | ].
  split; [ rewrite <- !app_assoc; reflexivity | ].
  split; [ exact Hlen | exact Hall ].
Qed.

End Outcomes.

Lemma fetch_audit_window_outcome_witness :
  exists report (mid : trace Z),
    JObj [("window_start", JStr "2024-01-01");
          ("window_end", JStr "2024-01-01");
          ("report", status_body (JStr "COMPLETED"))]
    = JObj [("window_start", JStr (isoformat 738886));
            ("window_end", JStr (isoformat 738886));
            ("report", report)]
    /\ status_of report = Some (JStr "COMPLETED")
    /\ snd (fetch_audit_window
              (replay [ok_response (JObj [("id", JStr "r1")]);
                       ok_response (status_body (JStr "COMPLETED"))])
              Session 738886 738886 1 5 40 [])
       = [] ++ mid ++ [EvSleep 1]
    /\ (2 <= calls mid <= 1 + Z.to_nat 40%Z)%nat.
Proof.
  apply (fetch_audit_window_outcome
           (replay [ok_response (JObj [("id", JStr "r1")]);
                    ok_response (status_body (JStr "COMPLETED"))])
           Session 738886 738886 1 5 40 []).
  - lia.
  - vm_compute. reflexivity.
Defined.

Lemma main_reports_completed_witness :
  exists reports,
    List.length reports = 1%nat
    /\ Forall (fun report => status_of report = Some (JStr "COMPLETED"))
              reports.
Proof.
  assert (Hrun : one_day_run = (inr tt, snd one_day_run))
    by (vm_compute; reflexivity).
  destruct (main_reports_completed _ _ _ _ Hrun)
    as (start_date & end_date & reports & before & path & closing
        & Hs & He & _ & Hlen & Hall).
  injection Hs as <-. injection He as <-.
  exists reports. split; [ exact Hlen | exact Hall ].
Defined.

Lemma get_report_once_outcome_witness :
  fst (get_report_once
         (replay [ok_response (status_body (JStr "PROCESSING"))])
         Session (JStr "r1") ([] : trace Z))
  = inr (status_body (JStr "PROCESSING"))
  /\ fst (get_report_once
            (replay [inr {| status_code := 404; body := None |}])
            Session (JStr "r1") ([] : trace Z))
     = inl (HTTPError 404).
Proof.
  split.
  - destruct (get_report_once_outcome
                (replay [ok_response (status_body (JStr "PROCESSING"))])
                Session (JStr "r1") ([] : trace Z)) as (_ & Hok & _).
    apply Hok. reflexivity.
  - destruct (get_report_once_outcome
                (replay [inr {| status_code := 404; body := None |}])
                Session (JStr "r1") ([] : trace Z)) as (_ & _ & Hfail).
    apply Hfail. reflexivity.
Defined.

(* ===================================================================== *)
(** ** The output document *)
(* ===================================================================== *)

Section Document.

Context {duration : Type}.
Variable H : host duration.

Lemma fetched_reports_app (tr1 tr2 : trace duration) :
  forall k,
    fetched_reports H k (tr1 ++ tr2)
    = fetched_reports H k tr1 ++ fetched_reports H (k + calls tr1) tr2.
Proof.
  induction tr1 as [ | ev tr1 IH ]; intros k.
  - simpl. rewrite Nat.add_0_r. reflexivity.
  - destruct ev; cbn [app fetched_reports];
      unfold calls; cbn [filter is_call List.length]; fold (calls tr1);
      rewrite ?Nat.add_succ_r, <- ?Nat.add_succ_l.
    + apply IH.
    + apply IH.
    + destruct (reported (network H k)) as [[data status] | ].
      * destruct (eq_str status "COMPLETED");
          [ cbn [app]; f_equal | ]; apply IH.
      * apply IH.
    + apply IH.
    + apply IH.
    + apply IH.
    + apply IH.
Qed.

(** A window that is fetched: its entry of the document holds the report
    its poll fetched, and no file is touched. *)
Lemma fetch_audit_window_report (s : session)
      (window_start window_end : date)
      (sleep_between_windows poll_interval : duration) (max_polls : Z)
      (tr tr' : trace duration) (out : json) :
  window_start <= window_end ->
  fetch_audit_window H s window_start window_end sleep_between_windows
                     poll_interval max_polls tr = (inr out, tr') ->
  exists report mid,
    tr' = tr ++ mid
    /\ fetched_reports H (calls tr) mid = [report]
    /\ out = window_outcome H ((window_start, window_end), report)
    /\ filter is_post mid = [window_request H (window_start, window_end)].
Proof.
  intros Hle Hrun.
  destruct (payload_strings H window_start window_end Hle) as [Hstart Hend].
  cbv zeta in Hstart, Hend.
  unfold fetch_audit_window in Hrun. cbv zeta in Hrun.
  apply bind_inr in Hrun as (start_str & tr0 & Hs & Hrun).
  unfold lift in Hs. rewrite Hstart in Hs. injection Hs as <- <-.
  rewrite Hend in Hrun.
  apply bind_inr in Hrun as (? & tr1 & Hp1 & Hrun).
  unfold print, emit in Hp1. injection Hp1 as _ <-.
  apply bind_inr in Hrun as (report_id & tr2 & Hreq & Hrun).
  apply (f_equal snd) in Hreq. rewrite request_report_trace in Hreq.
  simpl in Hreq. subst tr2.
  apply bind_inr in Hrun as (? & tr3 & Hp2 & Hrun).
  unfold print, emit in Hp2. injection Hp2 as _ <-.
  apply bind_inr in Hrun as (report_data & tr4 & Hwait & Hrun).
  unfold wait_for_report in Hwait.
  pose proof Hwait as Hposts.
  apply poll_loop_returns in Hwait as (mid & -> & Hmid).
  apply poll_loop_run in Hposts as (n & mid' & Hmid' & _ & _ & _ & Hposts & _).
  apply app_inv_head in Hmid'. subst mid'.
  apply bind_inr in Hrun as (? & tr5 & Hp3 & Hrun).
  unfold print, emit in Hp3. injection Hp3 as _ <-.
  apply bind_inr in Hrun as (? & tr6 & Hsl & Hrun).
  apply sleep_inr in Hsl as [_ ->].
  injection Hrun as <- <-.
  exists report_data.
  exists ([EvPrint [Lit "Requesting AUDIT report from ";
                    FStr (JStr (strftime_Ymd H window_start)); Lit " to ";
                    FStr (JStr (strftime_Ymd H window_end)); Lit "..."];
           EvPost BASE_URL
                  (JObj (build_audit_payload H window_start window_end)) 60;
           EvPrint [Lit "  Report id: "; FStr report_id]]
          ++ mid
          ++ [EvPrint [Lit "  Report completed and retrieved."];
              EvSleep sleep_between_windows]).
  split; [ rewrite <- !app_assoc; reflexivity | ].
  split; [ | split; [ reflexivity | ] ].
  - rewrite !calls_app in Hmid. unfold calls in Hmid at 2 3 4.
    simpl in Hmid. rewrite !Nat.add_0_r, Nat.add_1_r in Hmid.
    cbn [app fetched_reports].
    rewrite fetched_reports_app, Hmid. reflexivity.
  - rewrite !filter_app, Hposts. reflexivity.
Qed.

Lemma export_windows_reports (s : session) (args : arguments duration)
      (windows : list window) :
  Forall (fun w => fst w <= snd w) windows ->
  forall (id : Z) (all_windows out : list json) (tr tr' : trace duration),
    export_windows H s args id windows all_windows tr = (inr out, tr') ->
    exists mid,
      tr' = tr ++ mid
      /\ List.length (fetched_reports H (calls tr) mid) = List.length windows
      /\ out = all_windows
               ++ map (window_outcome H)
                      (combine windows (fetched_reports H (calls tr) mid))
      /\ filter is_post mid = map (window_request H) windows.
Proof.
  induction 1 as [ | [w_start w_end] later Hw _ IH ];
    intros id all_windows out tr tr' Hrun.
  - injection Hrun as <- <-. exists []. rewrite !app_nil_r.
    repeat split; reflexivity.
  - cbn [export_windows] in Hrun.
    apply bind_inr in Hrun as (? & tr1 & Hprint & Hrun).
    unfold print, emit in Hprint. injection Hprint as _ <-.
    apply bind_inr in Hrun as (window_data & tr2 & Hfetch & Hrun).
    simpl in Hw.
    apply (fetch_audit_window_report _ _ _ _ _ _ _ _ _ Hw) in Hfetch
      as (report & mid1 & -> & Hrep1 & -> & Hpost1).
    apply IH in Hrun as (mid2 & -> & Hlen2 & -> & Hpost2).
    exists ([EvPrint [Lit newline; Lit "=== Data Window "; FInt id;
                      Lit ": "; FDate w_start; Lit " to "; FDate w_end;
                      Lit " ==="]]
            ++ mid1 ++ mid2).
    assert (Hfetched :
              fetched_reports H (calls tr)
                ([EvPrint [Lit newline; Lit "=== Data Window "; FInt id;
                           Lit ": "; FDate w_start; Lit " to ";
                           FDate w_end; Lit " ==="]]
                 ++ mid1 ++ mid2)
              = report
                  :: fetched_reports H
                       (calls ((tr ++ [EvPrint
                                         [Lit newline;
                                          Lit "=== Data Window "; FInt id;
                                          Lit ": "; FDate w_start;
                                          Lit " to "; FDate w_end;
                                          Lit " ==="]]) ++ mid1))
                       mid2).
    { cbn [app fetched_reports]. rewrite fetched_reports_app.
      rewrite !calls_app in *. unfold calls in Hrep1 at 2.
      simpl in Hrep1. rewrite Nat.add_0_r in Hrep1. rewrite Hrep1.
      unfold calls at 4. simpl. rewrite Nat.add_0_r. reflexivity. }
    rewrite Hfetched.
    split; [ rewrite <- !app_assoc; reflexivity | ].
    split; [ simpl; rewrite Hlen2; reflexivity | ].
    split; [ simpl; rewrite <- app_assoc; reflexivity | ].
    rewrite !filter_app, Hpost1, Hpost2. reflexivity.
Qed.

(** C9: a run of [main] that succeeds on the dates (start, end) writes one
    file.  Its name is "veracode_audit_<start>_to_<end>.json" with the two
    dates in ISO format; its content is the JSON list with one
    {window_start, window_end, report} object per window of the range, in
    the order of the windows, each with the dates of its window and the
    report that the poll of that window fetched, dumped with indent 2; the
    file is opened and written after everything else, just before the
    closing line. *)
Theorem main_output (args : arguments duration) (tr tr' : trace duration) :
  main H args tr = (inr tt, tr') ->
  exists start_date end_date mid,
    fromisoformat H (arg_start_date args) = inr start_date
    /\ resolved_end_date H args = inr end_date
    /\ date_iteration_windows start_date end_date
       = (fst (date_iteration_windows start_date end_date), StopIteration)
    /\ Forall (fun ev => is_file_event ev = false) mid
    /\ List.length (fetched_reports H (calls tr) mid)
       = List.length (fst (date_iteration_windows start_date end_date))
    /\ tr' = tr ++ mid
             ++ [EvOpen
                   ("veracode_audit_" ++ isoformat start_date ++ "_to_"
                    ++ isoformat end_date ++ ".json")%string;
                 EvDump
                   ("veracode_audit_" ++ isoformat start_date ++ "_to_"
                    ++ isoformat end_date ++ ".json")%string
                   (JArr (map (window_outcome H)
                              (combine
                                 (fst (date_iteration_windows
                                         start_date end_date))
                                 (fetched_reports H (calls tr) mid))))
                   2;
                 EvPrint
                   [Lit newline; Lit "Done. Saved ";
                    FInt (Z.of_nat
                            (List.length
                               (fst (date_iteration_windows
                                       start_date end_date))));
                    Lit " window(s) to ";
                    Lit ("veracode_audit_" ++ isoformat start_date ++ "_to_"
                         ++ isoformat end_date ++ ".json")%string]].
Proof.
  intros Hrun. unfold main in Hrun.
  apply bind_inr in Hrun as (start_date & tr1 & Hs & Hrun).
  unfold to_date, lift in Hs. injection Hs as Hs <-.
  apply bind_inr in Hrun as (end_date & tr2 & He & Hrun).
  assert (He' : resolved_end_date H args = inr end_date /\ tr2 = tr).
  { unfold resolved_end_date.
    destruct (arg_end_date args) as [value | ].
    - destruct (negb (value =? EmptyString)%string).
      + unfold to_date, lift in He. injection He as He <-.
        split; [ exact He | reflexivity ].
      + injection He as <- <-. split; reflexivity.
    - injection He as <- <-. split; reflexivity. }
  destruct He' as [He' ->]. clear He.
  destruct (start_date >? end_date) eqn:Hcheck; [ discriminate Hrun | ].
  rewrite Z.gtb_ltb in Hcheck. apply Z.ltb_ge in Hcheck.
  apply bind_inr in Hrun as (? & tr3 & Hp1 & Hrun).
  unfold print, emit in Hp1. injection Hp1 as _ <-.
  apply bind_inr in Hrun as (s & tr4 & Hnew & Hrun).
  unfold new_session, bind, emit, ret in Hnew. injection Hnew as _ <-.
  cbv zeta in Hrun.
  apply bind_inr in Hrun as (all_windows & tr5 & Hexp & Hrun).
  destruct (snd (date_iteration_windows start_date end_date)) eqn:Hend;
    [ | discriminate Hrun ].
  assert (Hchain : chain start_date end_date
                         (fst (date_iteration_windows start_date end_date))).
  { apply windows_from_chain; [ lia | exact Hend ]. }
  assert (Hws : Forall (fun w => fst w <= snd w)
                       (fst (date_iteration_windows start_date end_date))).
  { apply Forall_forall. intros w Hin.
    pose proof (chain_bounds _ _ _ Hchain w Hin) as Hb.
    destruct w as [a b]. simpl in *. lia. }
  pose proof (quiet_export_windows H _ _ _ _ _ _ _ _ Hexp)
    as (midq & Hmidq & Hquiet).
  apply (export_windows_reports _ _ _ Hws) in Hexp
    as (mid & -> & Hlen & Hall & _).
  apply app_inv_head in Hmidq. subst midq.
  simpl in Hall. subst all_windows.
  apply bind_inr in Hrun as (? & tr6 & Hdump & Hrun).
  apply dump_to_file_inr in Hdump as ->.
  unfold print, emit in Hrun. injection Hrun as <-.
  assert (Hcalls : calls ((tr ++ [EvPrint
                                    [Lit "Exporting AUDIT data from ";
                                     FDate start_date; Lit " to ";
                                     FDate end_date; Lit "..."]])
                          ++ [EvSession]) = calls tr)
    by (rewrite !calls_app; unfold calls; simpl; lia).
  rewrite Hcalls in Hlen.
  exists start_date, end_date.
  exists ([EvPrint [Lit "Exporting AUDIT data from "; FDate start_date;
                    Lit " to "; FDate end_date; Lit "..."];
           EvSession] ++ mid).
  split; [ exact Hs | ]. split; [ exact He' | ].
  split; [ rewrite <- Hend; apply surjective_pairing | ].
  split.
  { constructor; [ reflexivity | ]. constructor; [ reflexivity | exact Hquiet ]. }
  cbn [app fetched_reports].
  split; [ exact Hlen | ].
  rewrite length_map, length_combine, Hcalls, Hlen, Nat.min_id.
  unfold out_file_name. rewrite <- !app_assoc. reflexivity.
Qed.

(** X14: the output file is opened last.  In every run of [main], however
    it ends, either no file is opened or written at all, or the file, named
    after the two dates, is opened once: after the generator has stopped
    normally, after one submission for every window of the range and after
    one COMPLETED report fetched for every window; no HTTP call is made once
    it is open. *)
Theorem main_opens_file_last (args : arguments duration)
        (tr tr' : trace duration) (r : exn + unit) :
  main H args tr = (r, tr') ->
  exists mid,
    tr' = tr ++ mid
    /\ (Forall (fun ev => is_file_event ev = false) mid
        \/ exists start_date end_date pre post,
            fromisoformat H (arg_start_date args) = inr start_date
            /\ resolved_end_date H args = inr end_date
            /\ snd (date_iteration_windows start_date end_date)
               = StopIteration
            /\ mid = pre ++ EvOpen (out_file_name start_date end_date) :: post
            /\ Forall (fun ev => is_file_event ev = false) pre
            /\ filter is_post pre
               = map (window_request H)
                     (fst (date_iteration_windows start_date end_date))
            /\ List.length (fetched_reports H (calls tr) pre)
               = List.length
                   (fst (date_iteration_windows start_date end_date))
            /\ calls post = 0%nat
            /\ filter is_file_event post = filter is_dump post).
Proof.
  intros Hrun. unfold main in Hrun.
  apply bind_cases in Hrun
    as [(e & Hs & ->) | (start_date & tr1 & Hs & Hrun)].
  { unfold to_date, lift in Hs. injection Hs as _ <-.
    exists []. rewrite app_nil_r. split; [ reflexivity | left; constructor ]. }
  unfold to_date, lift in Hs. injection Hs as Hs <-.
  apply bind_cases in Hrun
    as [(e & He & ->) | (end_date & tr2 & He & Hrun)].
  { exists []. rewrite app_nil_r. split; [ | left; constructor ].
    destruct (arg_end_date args) as [value | ]; [ | discriminate He ].
    destruct (negb (value =? EmptyString)%string); [ | discriminate He ].
    unfold to_date, lift in He. injection He as _ <-. reflexivity. }
  assert (He' : resolved_end_date H args = inr end_date /\ tr2 = tr).
  { unfold resolved_end_date.
    destruct (arg_end_date args) as [value | ].
    - destruct (negb (value =? EmptyString)%string).
      + unfold to_date, lift in He. injection He as He <-.
        split; [ exact He | reflexivity ].
      + injection He as <- <-. split; reflexivity.
    - injection He as <- <-. split; reflexivity. }
  destruct He' as [He' ->]. clear He.
  destruct (start_date >? end_date) eqn:Hcheck.
  { injection Hrun as <- <-.
    exists []. rewrite app_nil_r. split; [ reflexivity | left; constructor ]. }
  rewrite Z.gtb_ltb in Hcheck. apply Z.ltb_ge in Hcheck.
  unfold bind at 1, print at 1, emit at 1 in Hrun.
  unfold bind at 1, new_session, bind at 1, emit at 1, ret at 1 in Hrun.
  cbv zeta in Hrun.
  assert (Hcalls : calls ((tr ++ [EvPrint
                                    [Lit "Exporting AUDIT data from ";
                                     FDate start_date; Lit " to ";
                                     FDate end_date; Lit "..."]])
                          ++ [EvSession]) = calls tr)
    by (rewrite !calls_app; unfold calls; simpl; lia).
  apply bind_cases in Hrun
    as [(e & Hexp & ->) | (all_windows & tr5 & Hexp & Hrun)].
  { pose proof (quiet_export_windows H _ _ _ _ _ _ _ _ Hexp)
      as (midq & -> & Hquiet).
    exists ([EvPrint [Lit "Exporting AUDIT data from "; FDate start_date;
                       Lit " to "; FDate end_date; Lit "..."];
              EvSession] ++ midq).
    split; [ rewrite <- !app_assoc; reflexivity | ].
    left. simpl.
    constructor; [ reflexivity | ]. constructor; [ reflexivity | exact Hquiet ]. }
  pose proof (quiet_export_windows H _ _ _ _ _ _ _ _ Hexp)
    as (midq & Hmidq & Hquiet).
  destruct (snd (date_iteration_windows start_date end_date)) eqn:Hend.
  2:{ injection Hrun as <- <-. subst tr5.
      exists ([EvPrint [Lit "Exporting AUDIT data from "; FDate start_date;
                       Lit " to "; FDate end_date; Lit "..."];
              EvSession] ++ midq).
      split; [ rewrite <- !app_assoc; reflexivity | ].
      left. simpl.
      constructor; [ reflexivity | ].
      constructor; [ reflexivity | exact Hquiet ]. }
  assert (Hchain : chain start_date end_date
                         (fst (date_iteration_windows start_date end_date))).
  { apply windows_from_chain; [ lia | exact Hend ]. }
  assert (Hws : Forall (fun w => fst w <= snd w)
                       (fst (date_iteration_windows start_date end_date))).
  { apply Forall_forall. intros w Hin.
    pose proof (chain_bounds _ _ _ Hchain w Hin) as Hb.
    destruct w as [a b]. simpl in *. lia. }
  apply (export_windows_reports _ _ _ Hws) in Hexp
    as (mid & -> & Hlen & _ & Hposts).
  apply app_inv_head in Hmidq. subst midq.
  rewrite Hcalls in Hlen.
  assert (Hpre :
            Forall (fun ev : event duration => is_file_event ev = false)
                   ([EvPrint [Lit "Exporting AUDIT data from ";
                              FDate start_date; Lit " to "; FDate end_date;
                              Lit "..."];
                     EvSession] ++ mid)).
  { constructor; [ reflexivity | ].
    constructor; [ reflexivity | exact Hquiet ]. }
  unfold dump_to_file in Hrun.
  destruct (open_for_writing H (out_file_name start_date end_date)).
  { unfold bind, raise in Hrun. injection Hrun as <- <-.
    exists ([EvPrint [Lit "Exporting AUDIT data from "; FDate start_date;
                       Lit " to "; FDate end_date; Lit "..."];
              EvSession] ++ mid).
    split; [ rewrite <- !app_assoc; reflexivity | ].
    left. exact Hpre. }
  assert (Hopened :
            forall post,
              calls post = 0%nat ->
              filter is_file_event post = filter is_dump post ->
              tr' = (((tr ++ [EvPrint [Lit "Exporting AUDIT data from ";
                                       FDate start_date; Lit " to ";
                                       FDate end_date; Lit "..."]])
                      ++ [EvSession]) ++ mid)
                    ++ EvOpen (out_file_name start_date end_date) :: post ->
              exists mid0,
                tr' = tr ++ mid0
                /\ (Forall (fun ev => is_file_event ev = false) mid0
                    \/ exists start_date0 end_date0 pre post0,
                        fromisoformat H (arg_start_date args)
                        = inr start_date0
                        /\ resolved_end_date H args = inr end_date0
                        /\ snd (date_iteration_windows start_date0 end_date0)
                           = StopIteration
                        /\ mid0 = pre
                                  ++ EvOpen (out_file_name
                                               start_date0 end_date0)
                                  :: post0
                        /\ Forall (fun ev => is_file_event ev = false) pre
                        /\ filter is_post pre
                           = map (window_request H)
                                 (fst (date_iteration_windows
                                         start_date0 end_date0))
                        /\ List.length (fetched_reports H (calls tr) pre)
                           = List.length
                               (fst (date_iteration_windows
                                       start_date0 end_date0))
                        /\ calls post0 = 0%nat
                        /\ filter is_file_event post0
                           = filter is_dump post0)).
  { intros post Hpost Hfiles ->.
    exists (([EvPrint [Lit "Exporting AUDIT data from "; FDate start_date;
                       Lit " to "; FDate end_date; Lit "..."];
              EvSession] ++ mid)
            ++ EvOpen (out_file_name start_date end_date) :: post).
    split; [ rewrite <- !app_assoc; reflexivity | ].
    right. exists start_date, end_date.
    exists ([EvPrint [Lit "Exporting AUDIT data from "; FDate start_date;
                      Lit " to "; FDate end_date; Lit "..."];
             EvSession] ++ mid), post.
    split; [ exact Hs | ]. split; [ exact He' | ].
    split; [ exact Hend | ]. split; [ reflexivity | ].
    split; [ exact Hpre | ].
    split; [ simpl; exact Hposts | ].
    split; [ cbn [app fetched_reports]; exact Hlen | ].
    split; [ exact Hpost | exact Hfiles ]. }
  unfold bind at 1, bind at 1, emit at 1 in Hrun.
  destruct (dump_failure H (out_file_name start_date end_date)).
  - unfold raise in Hrun. injection Hrun as <- <-.
    apply (Hopened []); reflexivity.
  - unfold emit, print in Hrun. injection Hrun as <- <-.
    apply (Hopened
             [EvDump (out_file_name start_date end_date) (JArr all_windows) 2;
              EvPrint [Lit newline; Lit "Done. Saved ";
                       FInt (Z.of_nat (List.length all_windows));
                       Lit " window(s) to ";
                       Lit (out_file_name start_date end_date)]]);
      [ reflexivity | reflexivity | ].
    rewrite <- !app_assoc. reflexivity.
Qed.

End Document.

Lemma main_output_witness :
  fst one_day_run = inr tt
  /\ exists start_date end_date mid,
      date_iteration_windows start_date end_date
      = (fst (date_iteration_windows start_date end_date), StopIteration)
      /\ List.length
           (fetched_reports
              (replay [ok_response (JObj [("id", JStr "r1")]);
                       ok_response (status_body (JStr "COMPLETED"))])
              (calls ([] : trace Z)) mid)
         = List.length (fst (date_iteration_windows start_date end_date))
      /\ snd one_day_run
         = [] ++ mid
           ++ [EvOpen
                 ("veracode_audit_" ++ isoformat start_date ++ "_to_"
                  ++ isoformat end_date ++ ".json")%string;
               EvDump
                 ("veracode_audit_" ++ isoformat start_date ++ "_to_"
                  ++ isoformat end_date ++ ".json")%string
                 (JArr (map (window_outcome
                               (replay
                                  [ok_response (JObj [("id", JStr "r1")]);
                                   ok_response
                                     (status_body (JStr "COMPLETED"))]))
                            (combine
                               (fst (date_iteration_windows
                                       start_date end_date))
                               (fetched_reports
                                  (replay
                                     [ok_response (JObj [("id", JStr "r1")]);
                                      ok_response
                                        (status_body (JStr "COMPLETED"))])
                                  (calls ([] : trace Z)) mid))))
                 2;
               EvPrint
                 [Lit newline; Lit "Done. Saved ";
                  FInt (Z.of_nat
                          (List.length
                             (fst (date_iteration_windows
                                     start_date end_date))));
                  Lit " window(s) to ";
                  Lit ("veracode_audit_" ++ isoformat start_date ++ "_to_"
                       ++ isoformat end_date ++ ".json")%string]].
Proof.
  assert (Hrun : one_day_run = (inr tt, snd one_day_run))
    by (vm_compute; reflexivity).
  split; [ rewrite Hrun; reflexivity | ].
  destruct (main_output _ _ _ _ Hrun)
    as (start_date & end_date & mid & _ & _ & Hstop & _ & Hlen & Htr).
  exists start_date, end_date, mid.
  split; [ exact Hstop | ]. split; [ exact Hlen | exact Htr ].
Defined.

Lemma main_opens_file_last_witness :
  exists mid : trace Z,
    snd (main (replay [ok_response (JObj [("id", JStr "r1")]);
                       inr {| status_code := 500; body := None |}])
              (sample_arguments "2024-01-01" (Some "2024-01-01") 40) [])
    = [] ++ mid
    /\ Forall (fun ev => is_file_event ev = false) mid.
Proof.
  destruct (main_opens_file_last
              (replay [ok_response (JObj [("id", JStr "r1")]);
                       inr {| status_code := 500; body := None |}])
              (sample_arguments "2024-01-01" (Some "2024-01-01") 40)
              [] _ _ (surjective_pairing _))
    as (mid & Htr & [Hquiet | Hopened]).
  - exists mid. split; [ exact Htr | exact Hquiet ].
  - exfalso.
    destruct Hopened as (sd & ed & pre & post & _ & _ & _ & Hmid & _).
    subst mid. apply (f_equal (filter is_file_event)) in Htr.
    match type of Htr with
    | ?lhs = _ =>
        assert (E : lhs = []) by (vm_compute; reflexivity);
        rewrite E in Htr
    end.
    cbn [app] in Htr. rewrite filter_app in Htr.
    cbn [filter is_file_event] in Htr.
    destruct (filter is_file_event pre); discriminate Htr.
Defined.
